(** * SecurityHome: the security dashboard screen

    A shallow embedding of [frontend/app/security/home.tsx].

    The screen is a React function component: eight [useState] cells, one
    [useEffect] that starts the initialisation and a 30 s interval, six
    [async] functions that talk to the token store and to the backend, and
    a render function.

    - The [useState] cells are the record [State]; [render] computes from
      them what the JSX shows.
    - An [async] function is a tree of type [Async]: synchronous
      statements ([Do]) and suspension points ([Await]).  Every [await] of
      the source on the token store or on axios is one [Await] node; the
      code after it is the continuation.  A function that other functions
      call takes [next], what its caller does after the call.
    - The JavaScript event loop is the function [step] on [World]: the
      environment picks which pending call settles next and with what
      answer, when time passes, when the interval fires and when the user
      acts.  Calls settle in any order, also after the screen unmounted.
      [exec] runs one function to its end with nothing in between.
    - Time is a clock in milliseconds; the interval fires exactly when it
      is due.  The timeouts of the requests are recorded, not enforced: a
      request that times out is one that is rejected without a response.
    - Left out: [console.log] / [console.error], the styles, and the
      [onPress] handlers that only push a sibling screen
      (/security/nearby, /security/chat, ...).
    - JavaScript numbers are IEEE 754 doubles ([spec_float]); JavaScript
      strings are sequences of UTF-16 code units ([jsstring]).
    - [getAuthToken], [getUserMetadata] and [clearAuthData] come from
      [utils/auth], which is not part of this file: reads return what the
      store holds, and [clearAuthData] empties it. *)

From Stdlib Require Import ZArith NArith String Ascii Lia.
From Stdlib Require Import Floats.SpecFloat.
From stdpp Require Import base list strings.

Open Scope string_scope.
Open Scope N_scope.
Open Scope list_scope.

(** ** JavaScript values *)

(** A JavaScript number. *)
Definition number : Type := spec_float.

Definition zero : number := S754_zero false.
Definition neg_zero : number := S754_zero true.

(** The double 10, normalised: 10 = 5629499534213120 * 2^-49. *)
Definition ten : number := S754_finite false 5629499534213120 (-49).

(** [x === y] on numbers: IEEE equality, so [-0 === 0] and [NaN !== NaN]. *)
Definition strict_eq (x y : number) : bool := SFeqb x y.

(** ToBoolean on a number: [0], [-0] and [NaN] are falsy. *)
Definition truthy_number (x : number) : bool :=
  match x with
  | S754_zero _ | S754_nan => false
  | _ => true
  end.

(** A JavaScript string: its UTF-16 code units. *)
Definition jsstring : Type := list N.

Definition lit (s : string) : jsstring :=
  map N_of_ascii (list_ascii_of_string s).

(** The code units [String.prototype.trim] strips: ECMAScript WhiteSpace
    (TAB, VT, FF, SP, NBSP, ZWNBSP and the category Zs) and LineTerminator
    (LF, CR, LS, PS). *)
Definition is_white_space (c : N) : bool :=
  (  (c =? 0x9) || (c =? 0xA) || (c =? 0xB) || (c =? 0xC) || (c =? 0xD)
  || (c =? 0x20) || (c =? 0xA0) || (c =? 0x1680)
  || ((0x2000 <=? c) && (c <=? 0x200A))
  || (c =? 0x2028) || (c =? 0x2029) || (c =? 0x202F) || (c =? 0x205F)
  || (c =? 0x3000) || (c =? 0xFEFF)).

Fixpoint trimStart (s : jsstring) : jsstring :=
  match s with
  | [] => []
  | c :: s' => if is_white_space c then trimStart s' else s
  end.

Definition trimEnd (s : jsstring) : jsstring := rev (trimStart (rev s)).

Definition trim (s : jsstring) : jsstring := trimEnd (trimStart s).

(** ToBoolean on a string: only the empty string is falsy. *)
Definition truthy_string (s : jsstring) : bool :=
  match s with [] => false | _ => true end.

(** [s.split(' ')[0]]: the code units before the first space. *)
Fixpoint split_first (s : jsstring) : jsstring :=
  match s with
  | [] => []
  | c :: s' => if (c =? 0x20) then [] else c :: split_first s'
  end.

(** [a.slice(0, n)] on an array. *)
Definition slice0 {A} (n : nat) (a : list A) : list A := take n a.

(** ** Data model *)

Definition Token : Type := string.

Record UserMetadata := { role : option string }.

(** Response body of GET /api/security/team-location. *)
Record TeamLocation := {
  latitude : number;
  longitude : number;
  radius_km : option number      (* [None]: the field is absent *)
}.

Record Panic := {
  panic_id : jsstring;
  user_email : jsstring;
  activated_at : jsstring
}.

Inductive ReportType := video | audio.

Record Report := {
  report_id : jsstring;
  report_type : ReportType;
  caption : option jsstring
}.

(** Response body of GET /api/user/profile. *)
Record Profile := { full_name : option jsstring }.

(** Response body of POST /api/security/search-user; the other fields of
    the record travel in [payload]. *)
Record UserRecord := { user_id : jsstring; payload : jsstring }.

(** The [useState] cells of the component, with their initial values. *)
Record State := {
  teamLocation : option TeamLocation;
  nearbyReports : list Report;
  nearbyPanics : list Panic;
  radiusKm : number;
  searchTerm : jsstring;
  loading : bool;
  searchLoading : bool;
  agentName : jsstring
}.

Definition initialState : State := {|
  teamLocation := None;
  nearbyReports := [];
  nearbyPanics := [];
  radiusKm := ten;
  searchTerm := [];
  loading := true;
  searchLoading := false;
  agentName := lit "Agent"
|}.

(** ** Rendering *)

Module Render.

(** The subtitle of the Team Location card. *)
Inductive Subtitle :=
| Radius (km : number)           (* `Radius: ${radiusKm}km` *)
| NotSet.                        (* '⚠️ Not Set - Click to Set' *)

(** One list section: the empty-list text or the cards. *)
Inductive Section_ (A : Type) :=
| EmptyText
| Cards (items : list A).
Arguments EmptyText {A}.
Arguments Cards {A} items.

Record Dashboard := {
  warningBanner : bool;
  cardSubtitle : Subtitle;
  searchValue : jsstring;
  searchDisabled : bool;
  panicsCount : nat;
  panicsSection : Section_ Panic;
  reportsCount : nat;
  reportsSection : Section_ Report
}.

Inductive View :=
| LoadingView
| DashboardView (d : Dashboard).

(** [!teamLocation || (teamLocation.latitude === 0 &&
    teamLocation.longitude === 0)] *)
Definition showWarningBanner (teamLocation : option TeamLocation) : bool :=
  match teamLocation with
  | None => true
  | Some l => strict_eq (latitude l) zero && strict_eq (longitude l) zero
  end.

(** [teamLocation && teamLocation.latitude !== 0 ? `Radius: ...` : ...] *)
Definition subtitle (teamLocation : option TeamLocation) (radiusKm : number)
  : Subtitle :=
  match teamLocation with
  | None => NotSet
  | Some l => if negb (strict_eq (latitude l) zero) then Radius radiusKm
              else NotSet
  end.

(** [xs.length === 0 ? <empty text> : xs.slice(0, 3).map(card)] *)
Definition section {A} (xs : list A) : Section_ A :=
  if (length xs =? 0)%nat then EmptyText else Cards (slice0 3 xs).

Definition render (s : State) : View :=
  if loading s then LoadingView
  else DashboardView {|
    warningBanner := showWarningBanner (teamLocation s);
    cardSubtitle := subtitle (teamLocation s) (radiusKm s);
    searchValue := searchTerm s;
    searchDisabled := searchLoading s;
    panicsCount := length (nearbyPanics s);
    panicsSection := section (nearbyPanics s);
    reportsCount := length (nearbyReports s);
    reportsSection := section (nearbyReports s)
  |}.

(** The items a section puts on the screen. *)
Definition displayed {A} (s : Section_ A) : list A :=
  match s with
  | EmptyText => []
  | Cards items => items
  end.

End Render.

(** ** Requests, responses and effects *)

Inductive Method := GET | POST.

Record Request := {
  method : Method;
  url : string;
  authorization : string;          (* the Authorization header *)
  body : option jsstring;          (* [search_term] of the POST body *)
  timeout : N                      (* milliseconds *)
}.

(** [error.response] of a rejected axios call. *)
Record ErrorResponse := { status : N; detail : option jsstring }.

(** How an axios promise settles.  [Rejected None] is an error without a
    response: no network, or the timeout of the request. *)
Inductive HttpResult (A : Type) :=
| Resolved (data : A)
| Rejected (response : option ErrorResponse).
Arguments Resolved {A} data.
Arguments Rejected {A} response.

(** [error?.response?.status === 401] *)
Definition is401 (response : option ErrorResponse) : bool :=
  match response with
  | Some r => status r =? 401
  | None => false
  end.

(** [Promise.all([a, b])]: resolves when both resolve, rejects with the
    rejection that happens first. *)
Definition Promise_all {A B} (a : HttpResult A) (b : HttpResult B)
    (aFirst : bool) : HttpResult (A * B) :=
  match a, b with
  | Resolved x, Resolved y => Resolved (x, y)
  | Rejected e, Resolved _ => Rejected e
  | Resolved _, Rejected e => Rejected e
  | Rejected ea, Rejected eb => Rejected (if aFirst then ea else eb)
  end.

(** Parameters of [router.push]. *)
Inductive Params :=
| userData (u : UserRecord).       (* { userData: JSON.stringify(data) } *)

(** The synchronous statements of the component.  [enter f] marks the
    entry into the function [f] of the component; it has no counterpart in
    the source and changes nothing. *)
Inductive Effect :=
| setTeamLocation (v : option TeamLocation)
| setNearbyReports (v : list Report)
| setNearbyPanics (v : list Panic)
| setRadiusKm (v : number)
| setSearchTerm (v : jsstring)
| setLoading (v : bool)
| setSearchLoading (v : bool)
| setAgentName (v : jsstring)
| Alert_alert (title : string) (message : jsstring)
| Alert_confirm (title : string) (message : jsstring)
| router_replace (path : string)
| router_push (path : string) (params : Params)
| enter (f : string).

(** The asynchronous calls of the component; the index is the type of the
    value the [await] yields. *)
Inductive Call : Type -> Type :=
| getAuthToken : Call (option Token)
| getUserMetadata : Call UserMetadata
| clearAuthData : Call unit
| axios_get_profile (q : Request) : Call (HttpResult (option Profile))
| axios_get_team_location (q : Request)
    : Call (HttpResult (option TeamLocation))
| axios_get_nearby (reports panics : Request)
    : Call (HttpResult (option (list Report) * option (list Panic)))
| axios_post_search (q : Request) : Call (HttpResult UserRecord).

(** An [async] function body: it ends, runs a synchronous statement, or
    waits for a call to settle. *)
Inductive Async : Type :=
| Done
| Do (e : Effect) (k : Async)
| Await {X : Type} (c : Call X) (k : X -> Async).

Declare Scope async_scope.
Delimit Scope async_scope with async.
Bind Scope async_scope with Async.
Notation "'const' x := 'await' c ;; k" := (Await c (fun x => k%async))
  (at level 10, x name, c at level 99, k at level 200) : async_scope.
Notation "'await' c ;; k" := (Await c (fun _ => k%async))
  (at level 10, c at level 99, k at level 200) : async_scope.
Notation "'perform' e ;; k" := (Do e k%async)
  (at level 10, e at level 99, k at level 200) : async_scope.
Notation "'call' f ;; k" := (f k%async)
  (at level 10, f at level 99, k at level 200, only parsing) : async_scope.

(** ** The component *)

(** [!token] is false for a non-empty string only. *)
Definition truthy_token (token : option Token) : option Token :=
  match token with
  | Some "" => None
  | Some t => Some t
  | None => None
  end.

(** [data || []] *)
Definition or_empty {A} (data : option (list A)) : list A :=
  match data with
  | Some l => l
  | None => []
  end.

(** [radius_km || 10] *)
Definition or_ten (radius_km : option number) : number :=
  match radius_km with
  | Some r => if truthy_number r then r else ten
  | None => ten
  end.

(** [metadata.role !== 'security'] *)
Definition role_is_not (metadata : UserMetadata) (r : string) : bool :=
  match role metadata with
  | Some r' => negb (String.eqb r' r)
  | None => true
  end.

Definition bearer (token : Token) : string := "Bearer " +:+ token.

(** The build configuration the backend URL is resolved from. *)
Record BuildConfig := {
  expoConfig_extra_backendUrl : option string;
  EXPO_PUBLIC_BACKEND_URL : option string
}.

Definition truthy_url (u : option string) : option string :=
  match u with
  | Some "" => None
  | Some s => Some s
  | None => None
  end.

Definition BACKEND_URL_of (cfg : BuildConfig) : string :=
  match truthy_url (expoConfig_extra_backendUrl cfg) with
  | Some u => u
  | None =>
      match truthy_url (EXPO_PUBLIC_BACKEND_URL cfg) with
      | Some u => u
      | None => "https://guardlogin.preview.emergentagent.com"
      end
  end.

Definition default_config : BuildConfig :=
  {| expoConfig_extra_backendUrl := None; EXPO_PUBLIC_BACKEND_URL := None |}.

(** The functions of the component.  Each takes [next], what its caller
    does once the function has returned: a [return] of the source, and the
    end of the body, is [next]. *)
Section SecurityHome.

Variable cfg : BuildConfig.

Definition BACKEND_URL : string := BACKEND_URL_of cfg.

Definition get (path : string) (token : Token) (ms : N) : Request :=
  {| method := GET; url := BACKEND_URL +:+ path;
     authorization := bearer token; body := None; timeout := ms |}.

Definition post (path : string) (search_term : jsstring) (token : Token)
    (ms : N) : Request :=
  {| method := POST; url := BACKEND_URL +:+ path;
     authorization := bearer token; body := Some search_term;
     timeout := ms |}.

(** [loadAgentProfile] from its [axios.get] on. *)
Definition fetchProfile (token : Token) (next : Async) : Async :=
  (const response := await
     axios_get_profile (get "/api/user/profile" token 10000) ;;
   match response with
   | Resolved (Some {| full_name := Some name |}) =>
       if truthy_string name
       then perform setAgentName (split_first name) ;; next
       else next
   | Resolved _ => next
   | Rejected _ => next               (* catch: only logs *)
   end)%async.

Definition loadAgentProfile (next : Async) : Async :=
  (perform enter "loadAgentProfile" ;;
   const token := await getAuthToken ;;
   match truthy_token token with
   | None => next
   | Some token => fetchProfile token next
   end)%async.

(** [loadTeamLocation] from its [axios.get] on. *)
Definition fetchTeamLocation (token : Token) (next : Async) : Async :=
  (const response := await
     axios_get_team_location
       (get "/api/security/team-location" token 10000) ;;
   match response with
   | Resolved data =>
       perform setTeamLocation data ;;
       match data with
       | Some l => perform setRadiusKm (or_ten (radius_km l)) ;; next
       | None => next      (* TypeError on [data.radius_km], caught: the
                              error has no [response] *)
       end
   | Rejected response =>
       if is401 response
       then await clearAuthData ;;
            perform router_replace "/auth/login" ;; next
       else next
   end)%async.

Definition loadTeamLocation (next : Async) : Async :=
  (perform enter "loadTeamLocation" ;;
   const token := await getAuthToken ;;
   match truthy_token token with
   | None => next
   | Some token => fetchTeamLocation token next
   end)%async.

(** [loadNearbyData] from its [Promise.all] on. *)
Definition fetchNearby (token : Token) (next : Async) : Async :=
  (const res := await
     axios_get_nearby (get "/api/security/nearby-reports" token 15000)
                      (get "/api/security/nearby-panics" token 15000) ;;
   match res with
   | Resolved (reportsRes_data, panicsRes_data) =>
       perform setNearbyReports (or_empty reportsRes_data) ;;
       perform setNearbyPanics (or_empty panicsRes_data) ;; next
   | Rejected response =>
       if is401 response
       then await clearAuthData ;;
            perform router_replace "/auth/login" ;; next
       else next
   end)%async.

Definition loadNearbyData (next : Async) : Async :=
  (perform enter "loadNearbyData" ;;
   const token := await getAuthToken ;;
   match truthy_token token with
   | None => next
   | Some token => fetchNearby token next
   end)%async.

Definition initializeScreen : Async :=
  (perform enter "initializeScreen" ;;
   perform setLoading true ;;
   const token := await getAuthToken ;;
   match truthy_token token with
   | None => perform router_replace "/auth/login" ;; Done
   | Some _ =>
       const metadata := await getUserMetadata ;;
       if role_is_not metadata "security"
       then perform Alert_alert "Access Denied"
                      (lit "Security access required") ;;
            perform router_replace "/auth/login" ;; Done
       else call loadAgentProfile ;;
            call loadTeamLocation ;;
            call loadNearbyData ;;
            perform setLoading false ;; Done
   end)%async.

(** [handleSearch] from its [axios.post] on; [setSearchLoading false] is
    the [finally] block. *)
Definition postSearch (searchTerm : jsstring) (token : Token) : Async :=
  (const response := await
     axios_post_search
       (post "/api/security/search-user" (trim searchTerm) token 15000) ;;
   match response with
   | Resolved data =>
       perform router_push "/security/user-track" (userData data) ;;
       perform setSearchLoading false ;; Done
   | Rejected response =>
       if is401 response
       then perform Alert_alert "Session Expired"
                      (lit "Please login again") ;;
            await clearAuthData ;;
            perform router_replace "/auth/login" ;;
            perform setSearchLoading false ;; Done
       else perform Alert_alert "Not Found"
              (match response with
               | Some {| detail := Some d |} =>
                   if truthy_string d then d else lit "User not found"
               | _ => lit "User not found"
               end) ;;
            perform setSearchLoading false ;; Done
   end)%async.

(** [handleSearch], with the [searchTerm] of the render whose button was
    pressed. *)
Definition handleSearch (searchTerm : jsstring) : Async :=
  (perform enter "handleSearch" ;;
   if negb (truthy_string (trim searchTerm))
   then perform Alert_alert "Error" (lit "Please enter phone or email") ;;
        Done
   else
     perform setSearchLoading true ;;
     const token := await getAuthToken ;;
     match truthy_token token with
     | None =>
         perform router_replace "/auth/login" ;;
         perform setSearchLoading false ;; Done
     | Some token => postSearch searchTerm token
     end)%async.

(** [handleLogout]: the confirmation dialog. *)
Definition handleLogout : Async :=
  (perform enter "handleLogout" ;;
   perform Alert_confirm "Logout" (lit "Are you sure you want to logout?") ;;
   Done)%async.

(** The [onPress] of the dialog's Logout button. *)
Definition logoutConfirmed : Async :=
  (await clearAuthData ;;
   perform router_replace "/auth/login" ;; Done)%async.

End SecurityHome.

(** ** The event loop *)

(** The token store of [utils/auth]. *)
Record Storage := {
  stored_token : option Token;
  stored_metadata : UserMetadata
}.

(** Modelled from the spec: [clearAuthData] of [utils/auth], which is not
    part of this file; it "clears local session state": the stored token
    and the stored user metadata. *)
Definition cleared (s : Storage) : Storage :=
  {| stored_token := None; stored_metadata := {| role := None |} |}.

Inductive Phase := NotMounted | Mounted | Unmounted.

(** What the outside sees, with the time it happened at. *)
Inductive Obs :=
| ObsEffect (e : Effect)           (* a synchronous statement ran *)
| ObsRequest (q : Request)         (* an HTTP request was issued *)
| ObsClearAuthData                 (* [clearAuthData()] was called *)
| ObsInterval.                     (* the interval callback was invoked *)

Record World := {
  storage : Storage;
  state : State;
  tasks : list Async;       (* the async calls started so far *)
  interval : option N;             (* when the interval fires next *)
  now : N;                         (* milliseconds since the start *)
  phase : Phase;
  logoutDialog : bool;             (* the Logout confirmation is open *)
  trace : list (N * Obs)
}.

Definition initialWorld (s : Storage) : World := {|
  storage := s; state := initialState; tasks := []; interval := None;
  now := 0; phase := NotMounted; logoutDialog := false; trace := []
|}.

Definition with_storage (s : Storage) (w : World) : World :=
  {| storage := s; state := state w; tasks := tasks w;
     interval := interval w; now := now w; phase := phase w;
     logoutDialog := logoutDialog w; trace := trace w |}.

Definition with_state (s : State) (w : World) : World :=
  {| storage := storage w; state := s; tasks := tasks w;
     interval := interval w; now := now w; phase := phase w;
     logoutDialog := logoutDialog w; trace := trace w |}.

Definition with_tasks (ts : list Async) (w : World) : World :=
  {| storage := storage w; state := state w; tasks := ts;
     interval := interval w; now := now w; phase := phase w;
     logoutDialog := logoutDialog w; trace := trace w |}.

Definition with_interval (i : option N) (w : World) : World :=
  {| storage := storage w; state := state w; tasks := tasks w;
     interval := i; now := now w; phase := phase w;
     logoutDialog := logoutDialog w; trace := trace w |}.

Definition with_now (t : N) (w : World) : World :=
  {| storage := storage w; state := state w; tasks := tasks w;
     interval := interval w; now := t; phase := phase w;
     logoutDialog := logoutDialog w; trace := trace w |}.

Definition with_phase (p : Phase) (w : World) : World :=
  {| storage := storage w; state := state w; tasks := tasks w;
     interval := interval w; now := now w; phase := p;
     logoutDialog := logoutDialog w; trace := trace w |}.

Definition with_logoutDialog (b : bool) (w : World) : World :=
  {| storage := storage w; state := state w; tasks := tasks w;
     interval := interval w; now := now w; phase := phase w;
     logoutDialog := b; trace := trace w |}.

(** Append an observation, stamped with the current time. *)
Definition observe (o : Obs) (w : World) : World :=
  {| storage := storage w; state := state w; tasks := tasks w;
     interval := interval w; now := now w; phase := phase w;
     logoutDialog := logoutDialog w; trace := trace w ++ [(now w, o)] |}.

(** A state setter. *)
Definition set_state (e : Effect) (s : State) : State :=
  match e with
  | setTeamLocation v =>
      {| teamLocation := v; nearbyReports := nearbyReports s;
         nearbyPanics := nearbyPanics s; radiusKm := radiusKm s;
         searchTerm := searchTerm s; loading := loading s;
         searchLoading := searchLoading s; agentName := agentName s |}
  | setNearbyReports v =>
      {| teamLocation := teamLocation s; nearbyReports := v;
         nearbyPanics := nearbyPanics s; radiusKm := radiusKm s;
         searchTerm := searchTerm s; loading := loading s;
         searchLoading := searchLoading s; agentName := agentName s |}
  | setNearbyPanics v =>
      {| teamLocation := teamLocation s; nearbyReports := nearbyReports s;
         nearbyPanics := v; radiusKm := radiusKm s;
         searchTerm := searchTerm s; loading := loading s;
         searchLoading := searchLoading s; agentName := agentName s |}
  | setRadiusKm v =>
      {| teamLocation := teamLocation s; nearbyReports := nearbyReports s;
         nearbyPanics := nearbyPanics s; radiusKm := v;
         searchTerm := searchTerm s; loading := loading s;
         searchLoading := searchLoading s; agentName := agentName s |}
  | setSearchTerm v =>
      {| teamLocation := teamLocation s; nearbyReports := nearbyReports s;
         nearbyPanics := nearbyPanics s; radiusKm := radiusKm s;
         searchTerm := v; loading := loading s;
         searchLoading := searchLoading s; agentName := agentName s |}
  | setLoading v =>
      {| teamLocation := teamLocation s; nearbyReports := nearbyReports s;
         nearbyPanics := nearbyPanics s; radiusKm := radiusKm s;
         searchTerm := searchTerm s; loading := v;
         searchLoading := searchLoading s; agentName := agentName s |}
  | setSearchLoading v =>
      {| teamLocation := teamLocation s; nearbyReports := nearbyReports s;
         nearbyPanics := nearbyPanics s; radiusKm := radiusKm s;
         searchTerm := searchTerm s; loading := loading s;
         searchLoading := v; agentName := agentName s |}
  | setAgentName v =>
      {| teamLocation := teamLocation s; nearbyReports := nearbyReports s;
         nearbyPanics := nearbyPanics s; radiusKm := radiusKm s;
         searchTerm := searchTerm s; loading := loading s;
         searchLoading := searchLoading s; agentName := v |}
  | _ => s
  end.

(** Run one synchronous statement: it is observed, a setter updates its
    cell, the confirmation dialog opens. *)
Definition run_effect (e : Effect) (w : World) : World :=
  let w := with_state (set_state e (state w)) (observe (ObsEffect e) w) in
  match e with
  | Alert_confirm _ _ => with_logoutDialog true w
  | _ => w
  end.

(** Start an asynchronous call: its requests leave. *)
Definition issue {X} (c : Call X) (w : World) : World :=
  match c with
  | getAuthToken | getUserMetadata => w
  | clearAuthData => observe ObsClearAuthData w
  | axios_get_profile q | axios_get_team_location q | axios_post_search q =>
      observe (ObsRequest q) w
  | axios_get_nearby reports panics =>
      observe (ObsRequest panics) (observe (ObsRequest reports) w)
  end.

(** Run a body up to its next [await] (or its end). *)
Fixpoint advance (t : Async) (w : World) : World * Async :=
  match t with
  | Done => (w, t)
  | Do e k => advance k (run_effect e w)
  | Await c _ => (issue c w, t)
  end.

(** Start an [async] function: it runs to its first [await]. *)
Definition spawn (t : Async) (w : World) : World :=
  let '(w', t') := advance t w in with_tasks (tasks w' ++ [t']) w'.

(** How the environment settles a pending call. *)
Inductive Answer :=
| Settled                          (* a call on the token store *)
| ProfileResult (r : HttpResult (option Profile))
| TeamLocationResult (r : HttpResult (option TeamLocation))
| NearbyResult (reports : HttpResult (option (list Report)))
               (panics : HttpResult (option (list Panic)))
               (reportsFirst : bool)
| SearchResult (r : HttpResult UserRecord).

(** The value an [await] yields, and what settling does to the store. *)
Definition settle {X} (c : Call X) (a : Answer) (w : World)
  : option (X * World) :=
  match c in Call X return option (X * World) with
  | getAuthToken =>
      match a with
      | Settled => Some (stored_token (storage w), w)
      | _ => None
      end
  | getUserMetadata =>
      match a with
      | Settled => Some (stored_metadata (storage w), w)
      | _ => None
      end
  | clearAuthData =>
      match a with
      | Settled => Some (tt, with_storage (cleared (storage w)) w)
      | _ => None
      end
  | axios_get_profile _ =>
      match a with
      | ProfileResult r => Some (r, w)
      | _ => None
      end
  | axios_get_team_location _ =>
      match a with
      | TeamLocationResult r => Some (r, w)
      | _ => None
      end
  | axios_get_nearby _ _ =>
      match a with
      | NearbyResult reports panics reportsFirst =>
          Some (Promise_all reports panics reportsFirst, w)
      | _ => None
      end
  | axios_post_search _ =>
      match a with
      | SearchResult r => Some (r, w)
      | _ => None
      end
  end.

(** Task [i] runs on as [t], up to its next [await]. *)
Definition continue (i : nat) (t : Async) (w : World) : World :=
  let '(w', t') := advance t w in with_tasks (<[i := t']> (tasks w')) w'.

(** The pending call of task [i] settles and the task runs on. *)
Definition resume (i : nat) (a : Answer) (w : World) : option World :=
  match tasks w !! i with
  | Some (Await c k) =>
      match settle c a w with
      | Some (x, w1) => Some (continue i (k x) w1)
      | None => None
      end
  | _ => None
  end.

Inductive Event :=
| Mount                            (* the effect of [useEffect] runs *)
| Unmount                          (* its cleanup runs *)
| Elapse (ms : N)                  (* time passes *)
| IntervalFire                     (* the interval is due *)
| ChangeText (s : jsstring)        (* [onChangeText] of the search input *)
| PressSearch
| PressLogout
| ConfirmLogout                    (* the Logout button of the dialog *)
| CancelLogout
| Resolve (i : nat) (a : Answer).  (* a pending call settles *)

Section EventLoop.

Variable cfg : BuildConfig.

(** The dashboard is on screen and takes input. *)
Definition interactive (w : World) : bool :=
  match phase w with
  | Mounted => negb (loading (state w))
  | _ => false
  end.

Definition step (w : World) (ev : Event) : option World :=
  match ev with
  | Mount =>
      match phase w with
      | NotMounted =>
          let w := spawn (initializeScreen cfg) (with_phase Mounted w) in
          Some (with_interval (Some (now w + 30000)) w)
      | _ => None
      end
  | Unmount =>
      match phase w with
      | Mounted => Some (with_interval None (with_phase Unmounted w))
      | _ => None
      end
  | Elapse ms =>
      match interval w with
      | Some due =>
          if now w + ms <=? due then Some (with_now (now w + ms) w)
          else None
      | None => Some (with_now (now w + ms) w)
      end
  | IntervalFire =>
      match interval w with
      | Some due =>
          if now w =? due
          then Some (spawn (loadNearbyData cfg Done)
                       (observe ObsInterval
                          (with_interval (Some (due + 30000)) w)))
          else None
      | None => None
      end
  | ChangeText s =>
      if interactive w then Some (run_effect (setSearchTerm s) w) else None
  | PressSearch =>
      if interactive w && negb (searchLoading (state w))
      then Some (spawn (handleSearch cfg (searchTerm (state w))) w)
      else None
  | PressLogout =>
      if interactive w then Some (spawn handleLogout w) else None
  | ConfirmLogout =>
      if logoutDialog w
      then Some (spawn logoutConfirmed (with_logoutDialog false w))
      else None
  | CancelLogout =>
      if logoutDialog w then Some (with_logoutDialog false w) else None
  | Resolve i a => resume i a w
  end.

Fixpoint run (w : World) (evs : list Event) : option World :=
  match evs with
  | [] => Some w
  | ev :: evs' =>
      match step w ev with
      | Some w' => run w' evs'
      | None => None
      end
  end.

End EventLoop.

(** ** Reading a trace *)

Definition requests (tr : list (N * Obs)) : list Request :=
  omap (fun x => match snd x with ObsRequest q => Some q | _ => None end) tr.

Definition effects (tr : list (N * Obs)) : list Effect :=
  omap (fun x => match snd x with ObsEffect e => Some e | _ => None end) tr.

(** The times at which the function [f] was entered. *)
Definition entries (f : string) (tr : list (N * Obs)) : list N :=
  omap (fun x => match snd x with
                 | ObsEffect (enter g) =>
                     if String.eqb f g then Some (fst x) else None
                 | _ => None
                 end) tr.


(** The number of calls of [clearAuthData]. *)
Definition clears (tr : list (N * Obs)) : nat :=
  length (omap (fun x => match snd x with
                         | ObsClearAuthData => Some tt
                         | _ => None
                         end) tr).

(** The paths given to [router.replace]. *)
Definition redirects (tr : list (N * Obs)) : list string :=
  omap (fun e => match e with router_replace p => Some p | _ => None end)
       (effects tr).

(** The alerts shown. *)
Definition alerts (tr : list (N * Obs)) : list (string * jsstring) :=
  omap (fun e => match e with
                 | Alert_alert t m => Some (t, m)
                 | _ => None
                 end) (effects tr).

(** The number is 0 or -0. *)
Definition is_zero (x : number) : Prop := exists s, x = S754_zero s.

(** A parked task waits at an [await] or is done. *)
Fixpoint suspended (t : Async) : Async :=
  match t with
  | Do _ k => suspended k
  | _ => t
  end.

(** ** Running one task without interleaving *)

(** What the backend answers to each request. *)
Record Backend := {
  profile_result : HttpResult (option Profile);
  team_location_result : HttpResult (option TeamLocation);
  nearby_reports_result : HttpResult (option (list Report));
  nearby_panics_result : HttpResult (option (list Panic));
  nearby_reports_first : bool;
  search_result : HttpResult UserRecord
}.


(** The value the call yields when the backend answers as [b] says. *)
Definition settle_with {X} (b : Backend) (c : Call X) (w : World)
  : X * World :=
  match c in Call X return X * World with
  | getAuthToken => (stored_token (storage w), w)
  | getUserMetadata => (stored_metadata (storage w), w)
  | clearAuthData => (tt, with_storage (cleared (storage w)) w)
  | axios_get_profile _ => (profile_result b, w)
  | axios_get_team_location _ => (team_location_result b, w)
  | axios_get_nearby _ _ =>
      (Promise_all (nearby_reports_result b) (nearby_panics_result b)
                   (nearby_reports_first b), w)
  | axios_post_search _ => (search_result b, w)
  end.

(** Run a body to its end: every call settles as soon as it is made and
    nothing else happens in between. *)
Fixpoint exec (b : Backend) (t : Async) (w : World) : World :=
  match t with
  | Done => w
  | Do e k => exec b k (run_effect e w)
  | Await c k =>
      exec b (k (fst (settle_with b c (issue c w))))
           (snd (settle_with b c (issue c w)))
  end.



(** ** Tasks that cannot reach the backend *)

(** [quiet t]: as long as the token store yields no usable token, [t]
    issues no request, now or after any of its calls settles. *)
Fixpoint quiet (t : Async) : Prop :=
  match t with
  | Done => True
  | Do _ k => quiet k
  | Await c k =>
      match c in Call X return (X -> Prop) -> Prop with
      | getAuthToken =>
          fun P => forall token, truthy_token token = None -> P token
      | getUserMetadata => fun P => forall metadata, P metadata
      | clearAuthData => fun P => P tt
      | _ => fun _ => False
      end (fun x => quiet (k x))
  end.

(** The state of a session without a usable token. *)
Definition offline (w : World) : Prop :=
  truthy_token (stored_token (storage w)) = None /\
  Forall quiet (tasks w) /\
  requests (trace w) = [].


(** The token store with the given token and role. *)
Definition session (token : option Token) (r : option string) : Storage :=
  {| stored_token := token; stored_metadata := {| role := r |} |}.

(** ** The instants of the interval *)




(** What a run shows: a reading of its trace, when the run is possible. *)
Definition observed {A} (f : list (N * Obs) -> A) (o : option World)
  : option A :=
  match o with
  | Some w => Some (f (trace w))
  | None => None
  end.

(** ** Sample sessions *)

Definition security_session : Storage :=
  session (Some "tok") (Some "security").

(** The mount of a security agent, every call settling in program order:
    token, metadata, profile, team location, nearby data. *)
Definition mount_events (profile : HttpResult (option Profile))
    (location : HttpResult (option TeamLocation)) : list Event :=
  [Mount; Resolve 0 Settled; Resolve 0 Settled;
   Resolve 0 Settled; Resolve 0 (ProfileResult profile);
   Resolve 0 Settled; Resolve 0 (TeamLocationResult location)].

Definition sample_location : TeamLocation :=
  {| latitude := ten; longitude := ten; radius_km := Some zero |}.

Definition sample_profile : Profile :=
  {| full_name := Some (lit "Ada Agent") |}.

(** The dashboard of a security agent, after a mount whose requests all
    succeeded with empty lists. *)
Definition dashboard_world : World :=
  default (initialWorld security_session)
    (run default_config (initialWorld security_session)
       (mount_events (Resolved (Some sample_profile))
                     (Resolved (Some sample_location))
        ++ [Resolve 0 Settled;
            Resolve 0 (NearbyResult (Resolved (Some [])) (Resolved (Some []))
                                    true)])).

(** The same screen 30 s later: the interval has fired and its loader
    waits for the two nearby requests. *)
Definition polling_world : World :=
  default dashboard_world
    (run default_config dashboard_world
       [Elapse 30000; IntervalFire; Resolve 1 Settled]).

(** The mount of a security agent, waiting for the team location. *)
Definition locating_world : World :=
  default (initialWorld security_session)
    (run default_config (initialWorld security_session)
       [Mount; Resolve 0 Settled; Resolve 0 Settled;
        Resolve 0 Settled; Resolve 0 (ProfileResult (Resolved None));
        Resolve 0 Settled]).

(** A dashboard whose team location is the unset one, with four panics
    and two reports. *)
Definition sample_panic (n : N) : Panic :=
  {| panic_id := [n]; user_email := lit "user@example.org";
     activated_at := lit "2025-01-01T00:00:00Z" |}.

Definition sample_report (n : N) : Report :=
  {| report_id := [n]; report_type := video; caption := None |}.

Definition unset_state : State := {|
  teamLocation :=
    Some {| latitude := zero; longitude := neg_zero; radius_km := None |};
  nearbyReports := [sample_report 1; sample_report 2];
  nearbyPanics :=
    [sample_panic 1; sample_panic 2; sample_panic 3; sample_panic 4];
  radiusKm := ten;
  searchTerm := [];
  loading := false;
  searchLoading := false;
  agentName := lit "Ada"
|}.

Definition unset_dashboard : Render.Dashboard := {|
  Render.warningBanner := true;
  Render.cardSubtitle := Render.NotSet;
  Render.searchValue := [];
  Render.searchDisabled := false;
  Render.panicsCount := 4;
  Render.panicsSection :=
    Render.Cards [sample_panic 1; sample_panic 2; sample_panic 3];
  Render.reportsCount := 2;
  Render.reportsSection := Render.Cards [sample_report 1; sample_report 2]
|}.

(** ** Reading a function off its tree *)

(** [ends_in t s Q]: whatever its calls yield, [t] started with the cells
    [s] ends with cells that satisfy [Q]. *)
Fixpoint ends_in (t : Async) (s : State) (Q : State -> Prop) : Prop :=
  match t with
  | Done => Q s
  | Do e k => ends_in k (set_state e s) Q
  | Await _ k => forall x, ends_in (k x) s Q
  end.

(** What starting the call [c] shows to the outside. *)
Definition issued {X} (c : Call X) : list Obs :=
  match c with
  | getAuthToken | getUserMetadata => []
  | clearAuthData => [ObsClearAuthData]
  | axios_get_profile q | axios_get_team_location q | axios_post_search q =>
      [ObsRequest q]
  | axios_get_nearby reports panics => [ObsRequest reports; ObsRequest panics]
  end.

(** [emits P t]: whatever its calls yield, everything [t] shows to the
    outside satisfies [P]. *)
Fixpoint emits (P : Obs -> Prop) (t : Async) : Prop :=
  match t with
  | Done => True
  | Do e k => P (ObsEffect e) /\ emits P k
  | Await c k => Forall P (issued c) /\ forall x, emits P (k x)
  end.

(** The request goes to the backend of the build, with a bearer token
    that is not empty, and a timeout of 10 or 15 seconds. *)
Definition well_formed (cfg : BuildConfig) (q : Request) : Prop :=
  (exists path, url q = BACKEND_URL cfg +:+ path) /\
  (exists token, token <> "" /\ authorization q = "Bearer " +:+ token) /\
  (timeout q = 10000 \/ timeout q = 15000) /\
  (method q = GET -> body q = None).

(** What the screen may show to the outside: requests that are well
    formed, redirects to /auth/login, pushes of /security/user-track. *)
Definition expected (cfg : BuildConfig) (o : Obs) : Prop :=
  match o with
  | ObsRequest q => well_formed cfg q
  | ObsEffect (router_replace path) => path = "/auth/login"
  | ObsEffect (router_push path _) => path = "/security/user-track"
  | _ => True
  end.

(** The cells a loader leaves alone. *)
Definition same_but_agentName (s s' : State) : Prop :=
  teamLocation s' = teamLocation s /\
  nearbyReports s' = nearbyReports s /\
  nearbyPanics s' = nearbyPanics s /\
  radiusKm s' = radiusKm s /\
  searchTerm s' = searchTerm s /\
  loading s' = loading s /\
  searchLoading s' = searchLoading s.

(** What was given to [router.push]. *)
Definition pushes (tr : list (N * Obs)) : list (string * Params) :=
  omap (fun e => match e with
                 | router_push p ps => Some (p, ps)
                 | _ => None
                 end) (effects tr).

(** ** Sessions the guard turns away *)

(** [under T M P t]: as long as the token store yields tokens in [T] and
    metadata in [M], every statement of [t] satisfies [P]. *)
Fixpoint under (T : option Token -> Prop) (M : UserMetadata -> Prop)
    (P : Effect -> Prop) (t : Async) : Prop :=
  match t with
  | Done => True
  | Do e k => P e /\ under T M P k
  | Await c k =>
      match c in Call X return (X -> Prop) -> Prop with
      | getAuthToken => fun K => forall token, T token -> K token
      | getUserMetadata => fun K => forall metadata, M metadata -> K metadata
      | _ => fun K => forall x, K x
      end (fun x => under T M P (k x))
  end.

(** The statements that leave the loading view on and the logout dialog
    closed. *)
Definition keeps_waiting (e : Effect) : Prop :=
  match e with
  | setLoading false => False
  | Alert_confirm _ _ => False
  | _ => True
  end.

(** The screen shows its loading view, and the store and the parked tasks
    are such that it will go on doing so. *)
Definition waiting (T : option Token -> Prop) (M : UserMetadata -> Prop)
    (w : World) : Prop :=
  T (stored_token (storage w)) /\
  M (stored_metadata (storage w)) /\
  Forall (under T M keeps_waiting) (tasks w) /\
  loading (state w) = true /\
  logoutDialog w = false.

(** When the team-location request is rejected with 401. *)
Definition location_unauthorized (b : Backend) : bool :=
  match team_location_result b with
  | Rejected response => is401 response
  | Resolved _ => false
  end.

(** A user whose role is not security, 30 s after the mount: the poll has
    fetched one report and one panic. *)
Definition polling_other_role : World :=
  default (initialWorld (session (Some "tok") (Some "user")))
    (run default_config (initialWorld (session (Some "tok") (Some "user")))
       [Mount; Resolve 0 Settled; Resolve 0 Settled;
        Elapse 30000; IntervalFire; Resolve 1 Settled;
        Resolve 1 (NearbyResult (Resolved (Some [sample_report 1]))
                                (Resolved (Some [sample_panic 1]))
                                true)]).


(** * Properties of the render function *)

Section RenderFacts.

Import Render.

Lemma strict_eq_zero (x : number) : strict_eq x zero = true <-> is_zero x.
Proof.
  unfold is_zero; split.
  - destruct x as [s|s| |s m e]; try destruct s; cbn; try discriminate;
      eauto.
  - intros [s ->]. reflexivity.
Qed.

Lemma strict_eq_zero_false (x : number) :
  strict_eq x zero = false <-> ~ is_zero x.
Proof.
  rewrite <- strict_eq_zero. destruct (strict_eq x zero); split;
    congruence.
Qed.

Lemma showWarningBanner_spec (tl : option TeamLocation) :
  showWarningBanner tl = true <->
  tl = None \/
  exists l, tl = Some l /\ is_zero (latitude l) /\ is_zero (longitude l).
Proof.
  destruct tl as [l|]; cbn.
  - rewrite andb_true_iff, !strict_eq_zero. split.
    + intros [? ?]. right. eauto.
    + intros [?|(l' & [= <-] & ? & ?)]; [discriminate | auto].
  - split; auto.
Qed.

Lemma render_dashboard (s : State) (d : Dashboard) :
  render s = DashboardView d ->
  loading s = false /\
  warningBanner d = showWarningBanner (teamLocation s) /\
  cardSubtitle d = subtitle (teamLocation s) (radiusKm s) /\
  panicsSection d = section (nearbyPanics s) /\
  reportsSection d = section (nearbyReports s).
Proof.
  unfold render. destruct (loading s); [discriminate|].
  intros [= <-]. cbn. auto.
Qed.

Lemma displayed_section {A} (xs : list A) :
  displayed (section xs) = take 3 xs.
Proof. destruct xs; reflexivity. Qed.

(** C7: on the dashboard the warning banner is shown exactly when no
    team location is loaded or the loaded one has latitude 0 and
    longitude 0; for any other coordinate pair it is hidden. *)
Theorem warning_banner_iff_unset (s : State) (d : Dashboard) :
  render s = DashboardView d ->
  (warningBanner d = true <->
     teamLocation s = None \/
     exists l, teamLocation s = Some l /\
               is_zero (latitude l) /\ is_zero (longitude l)) /\
  (forall l, teamLocation s = Some l ->
     ~ (is_zero (latitude l) /\ is_zero (longitude l)) ->
     warningBanner d = false).
Proof.
  intros (_ & -> & _)%render_dashboard. split.
  - apply showWarningBanner_spec.
  - intros l Hl Hnz.
    destruct (showWarningBanner (teamLocation s)) eqn:E; [|reflexivity].
    apply showWarningBanner_spec in E as [E|(l' & E & ? & ?)];
      rewrite Hl in E; [discriminate|].
    injection E as <-. tauto.
Qed.

(** C8: the dashboard shows of each list its first three elements, in
    the order of the list: at most three, and a prefix of the list. *)
Theorem dashboard_lists_first_three (s : State) (d : Dashboard) :
  render s = DashboardView d ->
  displayed (panicsSection d) = take 3 (nearbyPanics s) /\
  displayed (reportsSection d) = take 3 (nearbyReports s) /\
  (length (displayed (panicsSection d)) <= 3)%nat /\
  (length (displayed (reportsSection d)) <= 3)%nat /\
  displayed (panicsSection d) `prefix_of` nearbyPanics s /\
  displayed (reportsSection d) `prefix_of` nearbyReports s.
Proof.
  intros (_ & _ & _ & -> & ->)%render_dashboard.
  rewrite !displayed_section, !length_take.
  repeat split; try lia; apply prefix_take.
Qed.

(** C10: a loaded location with latitude 0 gets the subtitle "Not Set"
    whatever its longitude; the "Radius" subtitle is shown exactly when a
    location is loaded and its latitude is not 0; and this is not the
    predicate of the warning banner: some dashboard hides the banner and
    shows "Not Set". *)
Theorem subtitle_tests_latitude_only :
  (forall s d l,
     render s = DashboardView d -> teamLocation s = Some l ->
     is_zero (latitude l) -> cardSubtitle d = NotSet) /\
  (forall s d,
     render s = DashboardView d ->
     (cardSubtitle d = Radius (radiusKm s) <->
      exists l, teamLocation s = Some l /\ ~ is_zero (latitude l)) /\
     (cardSubtitle d = NotSet <->
      ~ exists l, teamLocation s = Some l /\ ~ is_zero (latitude l))) /\
  (exists s d l,
     render s = DashboardView d /\ teamLocation s = Some l /\
     is_zero (latitude l) /\ ~ is_zero (longitude l) /\
     warningBanner d = false /\ cardSubtitle d = NotSet).
Proof.
  split; [|split].
  - intros s d l (_ & _ & -> & _)%render_dashboard -> Hz.
    cbn. apply strict_eq_zero in Hz. now rewrite Hz.
  - intros s d (_ & _ & -> & _)%render_dashboard.
    destruct (teamLocation s) as [l|]; cbn.
    + destruct (strict_eq (latitude l) zero) eqn:E; cbn.
      * apply strict_eq_zero in E.
        split; split; intros H; try discriminate; try reflexivity.
        -- destruct H as (l' & [= <-] & Hn). tauto.
        -- intros (l' & [= <-] & Hn). tauto.
      * apply strict_eq_zero_false in E.
        split; split; intros H; try discriminate; try reflexivity.
        -- eauto.
        -- exfalso. eauto.
    + split; split; intros H; try discriminate; try reflexivity.
      * destruct H as (l & [=] & _).
      * intros (l & [=] & _).
  - exists {| teamLocation := Some {| latitude := zero; longitude := ten;
                                      radius_km := None |};
              nearbyReports := []; nearbyPanics := []; radiusKm := ten;
              searchTerm := []; loading := false; searchLoading := false;
              agentName := [] |}.
    eexists. eexists. split; [reflexivity|]. split; [reflexivity|].
    cbn. repeat split; eauto.
    + exists false. reflexivity.
    + intros [s [=]].
Qed.

End RenderFacts.

Lemma warning_banner_iff_unset_witness :
  (Render.warningBanner unset_dashboard = true <->
     teamLocation unset_state = None \/
     exists l, teamLocation unset_state = Some l /\
               is_zero (latitude l) /\ is_zero (longitude l)) /\
  (forall l, teamLocation unset_state = Some l ->
     ~ (is_zero (latitude l) /\ is_zero (longitude l)) ->
     Render.warningBanner unset_dashboard = false).
Proof.
  apply (warning_banner_iff_unset unset_state unset_dashboard).
  reflexivity.
Defined.

Lemma dashboard_lists_first_three_witness :
  Render.displayed (Render.panicsSection unset_dashboard)
    = [sample_panic 1; sample_panic 2; sample_panic 3] /\
  Render.displayed (Render.reportsSection unset_dashboard)
    = [sample_report 1; sample_report 2].
Proof.
  pose proof (dashboard_lists_first_three unset_state unset_dashboard
                eq_refl) as (Hp & Hr & _).
  split; [exact Hp | exact Hr].
Defined.

Lemma subtitle_tests_latitude_only_witness :
  Render.cardSubtitle unset_dashboard = Render.NotSet.
Proof.
  refine (proj1 subtitle_tests_latitude_only unset_state unset_dashboard _
            eq_refl eq_refl _).
  exists false. reflexivity.
Defined.

(** * Properties of the event loop *)

Section LoopFacts.

Variable cfg : BuildConfig.

(** ** What running a task cannot change *)

Lemma run_effect_frame (e : Effect) (w : World) :
  storage (run_effect e w) = storage w /\
  tasks (run_effect e w) = tasks w /\
  interval (run_effect e w) = interval w /\
  now (run_effect e w) = now w /\
  phase (run_effect e w) = phase w /\
  trace (run_effect e w) = trace w ++ [(now w, ObsEffect e)].
Proof. destruct e; cbn; auto 10. Qed.

Lemma issue_frame {X} (c : Call X) (w : World) :
  storage (issue c w) = storage w /\
  state (issue c w) = state w /\
  tasks (issue c w) = tasks w /\
  interval (issue c w) = interval w /\
  now (issue c w) = now w /\
  phase (issue c w) = phase w /\
  logoutDialog (issue c w) = logoutDialog w.
Proof. destruct c; cbn; auto 10. Qed.

Lemma advance_frame (t : Async) (w : World) :
  storage (fst (advance t w)) = storage w /\
  tasks (fst (advance t w)) = tasks w /\
  interval (fst (advance t w)) = interval w /\
  now (fst (advance t w)) = now w /\
  phase (fst (advance t w)) = phase w /\
  trace w `prefix_of` trace (fst (advance t w)).
Proof.
  revert w. induction t as [|e k IH|X c k IH]; intros w.
  - cbn. auto 10.
  - cbn [advance].
    destruct (IH (run_effect e w)) as (-> & -> & -> & -> & -> & Hp).
    destruct (run_effect_frame e w) as (-> & -> & -> & -> & -> & Ht).
    repeat split; auto. rewrite Ht in Hp.
    etrans; [|exact Hp]. apply prefix_app_r. reflexivity.
  - cbn [advance fst].
    destruct (issue_frame c w) as (-> & _ & -> & -> & -> & -> & _).
    repeat split; auto.
    destruct c; cbn; repeat apply prefix_app_r; reflexivity.
Qed.

Lemma advance_suspended (t : Async) (w : World) :
  snd (advance t w) = suspended t.
Proof.
  revert w. induction t; intros w; cbn; auto.
Qed.

Lemma spawn_frame (t : Async) (w : World) :
  storage (spawn t w) = storage w /\
  tasks (spawn t w) = tasks w ++ [suspended t] /\
  interval (spawn t w) = interval w /\
  now (spawn t w) = now w /\
  phase (spawn t w) = phase w /\
  trace (spawn t w) = trace (fst (advance t w)).
Proof.
  unfold spawn.
  pose proof (advance_frame t w) as (? & ? & ? & ? & ? & _).
  pose proof (advance_suspended t w).
  destruct (advance t w) as [w' t']; cbn in *. subst.
  repeat split; congruence.
Qed.

Lemma continue_frame (i : nat) (t : Async) (w : World) :
  storage (continue i t w) = storage w /\
  tasks (continue i t w) = <[i := suspended t]> (tasks w) /\
  interval (continue i t w) = interval w /\
  now (continue i t w) = now w /\
  phase (continue i t w) = phase w /\
  trace (continue i t w) = trace (fst (advance t w)).
Proof.
  unfold continue.
  pose proof (advance_frame t w) as (? & ? & ? & ? & ? & _).
  pose proof (advance_suspended t w).
  destruct (advance t w) as [w' t']; cbn in *. subst.
  repeat split; congruence.
Qed.

(** ** Without a token nothing reaches the backend *)

Lemma requests_snoc (tr : list (N * Obs)) (x : N * Obs) :
  requests (tr ++ [x]) =
  requests tr ++ match snd x with ObsRequest q => [q] | _ => [] end.
Proof.
  unfold requests. rewrite omap_app. cbn.
  destruct (snd x); reflexivity.
Qed.

Lemma advance_quiet (t : Async) (w : World) :
  quiet t ->
  requests (trace (fst (advance t w))) = requests (trace w) /\
  quiet (snd (advance t w)).
Proof.
  revert w. induction t as [|e k IH|X c k IH]; intros w Hq.
  - cbn. auto.
  - cbn [advance]. destruct (IH (run_effect e w) Hq) as [-> ?].
    split; [|assumption].
    destruct (run_effect_frame e w) as (_ & _ & _ & _ & _ & ->).
    rewrite requests_snoc. cbn. apply app_nil_r.
  - cbn [advance fst snd]. split; [|assumption].
    destruct c; cbn in Hq |- *; try contradiction; try reflexivity.
    rewrite requests_snoc. cbn. apply app_nil_r.
Qed.

Lemma quiet_loadNearbyData (next : Async) :
  quiet next -> quiet (loadNearbyData cfg next).
Proof. intros Hn token Ht. cbn. rewrite Ht. exact Hn. Qed.

Lemma quiet_initializeScreen : quiet (initializeScreen cfg).
Proof. intros token Ht. cbn. rewrite Ht. exact I. Qed.

Lemma quiet_handleSearch (s : jsstring) : quiet (handleSearch cfg s).
Proof.
  unfold handleSearch. cbn.
  destruct (negb (truthy_string (trim s))); cbn; [exact I|].
  intros token Ht. rewrite Ht. exact I.
Qed.

Lemma spawn_offline (t : Async) (w : World) :
  quiet t -> offline w -> offline (spawn t w).
Proof.
  intros Hq (Htok & Hts & Hreq).
  destruct (spawn_frame t w) as (Es & Et & _ & _ & _ & Etr).
  destruct (advance_quiet t w Hq) as [Er Hq'].
  unfold offline. rewrite Es, Et, Etr, Er.
  repeat split; auto.
  apply Forall_app. split; [assumption|].
  constructor; [|constructor]. now rewrite <- (advance_suspended t w).
Qed.

Lemma continue_offline (i : nat) (t : Async) (w : World) :
  quiet t -> offline w -> offline (continue i t w).
Proof.
  intros Hq (Htok & Hts & Hreq).
  destruct (continue_frame i t w) as (Es & Et & _ & _ & _ & Etr).
  destruct (advance_quiet t w Hq) as [Er Hq'].
  unfold offline. rewrite Es, Et, Etr, Er.
  repeat split; auto.
  apply Forall_insert; [assumption|].
  now rewrite <- (advance_suspended t w).
Qed.

Lemma resume_offline (i : nat) (a : Answer) (w w' : World) :
  offline w -> resume i a w = Some w' -> offline w'.
Proof.
  intros Hoff. unfold resume.
  destruct (tasks w !! i) as [[|e k|X c k]|] eqn:Ei; try discriminate.
  destruct Hoff as (Htok & Hts & Hreq).
  pose proof (Forall_lookup_1 _ _ _ _ Hts Ei) as Hq.
  destruct c; cbn in Hq; try contradiction;
    destruct a; cbn; try discriminate; intros [= <-];
    apply continue_offline; auto; split; auto.
Qed.

Lemma step_offline (ev : Event) (w w' : World) :
  offline w -> step cfg w ev = Some w' -> offline w'.
Proof.
  intros Hoff. destruct ev; cbn [step].
  - destruct (phase w); try discriminate. intros [= <-].
    apply (spawn_offline (initializeScreen cfg)
             (with_phase Mounted w) quiet_initializeScreen) in Hoff.
    exact Hoff.
  - destruct (phase w); try discriminate. now intros [= <-].
  - destruct (interval w); [destruct (_ <=? _); try discriminate|];
      now intros [= <-].
  - destruct (interval w) as [due|]; try discriminate.
    destruct (_ =? _); try discriminate. intros [= <-].
    apply spawn_offline; [now apply quiet_loadNearbyData|].
    destruct Hoff as (? & ? & Hr). repeat split; auto.
    cbn. rewrite requests_snoc. cbn. now rewrite app_nil_r.
  - destruct (interactive w); try discriminate. intros [= <-].
    destruct Hoff as (? & ? & Hr). repeat split; auto.
    cbn. rewrite requests_snoc. cbn. now rewrite app_nil_r.
  - destruct (_ && _); try discriminate. intros [= <-].
    apply spawn_offline; [apply quiet_handleSearch | assumption].
  - destruct (interactive w); try discriminate. intros [= <-].
    apply spawn_offline; [exact I | assumption].
  - destruct (logoutDialog w); try discriminate. intros [= <-].
    apply spawn_offline; [exact I | exact Hoff].
  - destruct (logoutDialog w); try discriminate. now intros [= <-].
  - apply resume_offline. assumption.
Qed.

Lemma run_offline (evs : list Event) (w w' : World) :
  offline w -> run cfg w evs = Some w' -> offline w'.
Proof.
  revert w. induction evs as [|ev evs IH]; intros w Hoff; cbn.
  - now intros [= <-].
  - destruct (step cfg w ev) as [w1|] eqn:E; [|discriminate].
    apply IH. eapply step_offline; eauto.
Qed.

(** ** Traces only grow *)

Lemma step_trace (ev : Event) (w w' : World) :
  step cfg w ev = Some w' -> trace w `prefix_of` trace w'.
Proof.
  destruct ev; cbn [step].
  - destruct (phase w); try discriminate. intros [= <-].
    change (trace w `prefix_of`
            trace (spawn (initializeScreen cfg) (with_phase Mounted w))).
    destruct (spawn_frame (initializeScreen cfg) (with_phase Mounted w))
      as (_ & _ & _ & _ & _ & ->).
    apply (advance_frame _ (with_phase Mounted w)).
  - destruct (phase w); try discriminate. now intros [= <-].
  - destruct (interval w); [destruct (_ <=? _); try discriminate|];
      now intros [= <-].
  - destruct (interval w) as [due|]; try discriminate.
    destruct (_ =? _); try discriminate. intros [= <-].
    match goal with |- _ `prefix_of` trace (spawn ?t ?w0) =>
      destruct (spawn_frame t w0) as (_ & _ & _ & _ & _ & ->);
      etrans; [|apply (advance_frame t w0)] end.
    cbn. now apply prefix_app_r.
  - destruct (interactive w); try discriminate. intros [= <-].
    cbn. now apply prefix_app_r.
  - destruct (_ && _); try discriminate. intros [= <-].
    match goal with |- _ `prefix_of` trace (spawn ?t ?w0) =>
      destruct (spawn_frame t w0) as (_ & _ & _ & _ & _ & ->);
      apply (advance_frame t w0) end.
  - destruct (interactive w); try discriminate. intros [= <-].
    cbn. repeat apply prefix_app_r. reflexivity.
  - destruct (logoutDialog w); try discriminate. intros [= <-].
    cbn. repeat apply prefix_app_r. reflexivity.
  - destruct (logoutDialog w); try discriminate. now intros [= <-].
  - unfold resume.
    destruct (tasks w !! i) as [[|e k|X c k]|]; try discriminate.
    destruct (settle c a w) as [[x w1]|] eqn:Es; try discriminate.
    intros [= <-].
    destruct (continue_frame i (k x) w1) as (_ & _ & _ & _ & _ & ->).
    etrans; [|apply (advance_frame (k x) w1)].
    destruct c; destruct a; cbn in Es; try discriminate;
      injection Es as <- <-; reflexivity.
Qed.

Lemma run_trace (evs : list Event) (w w' : World) :
  run cfg w evs = Some w' -> trace w `prefix_of` trace w'.
Proof.
  revert w. induction evs as [|ev evs IH]; intros w; cbn.
  - now intros [= <-].
  - destruct (step cfg w ev) as [w1|] eqn:E; [|discriminate].
    intros H. etrans; [eapply step_trace; eauto | eauto].
Qed.

End LoopFacts.

(** * Running a task to its end *)

Section Exec.

Variable cfg : BuildConfig.
Variable b : Backend.


(** The task table is passed along untouched. *)





(** So is the interval. *)

Lemma run_effect_with_interval (e : Effect) (i : option N) (w : World) :
  run_effect e (with_interval i w) = with_interval i (run_effect e w).
Proof. destruct e; reflexivity. Qed.

Lemma issue_with_interval {X} (c : Call X) (i : option N) (w : World) :
  issue c (with_interval i w) = with_interval i (issue c w).
Proof. destruct c; reflexivity. Qed.

Lemma advance_with_interval (t : Async) (i : option N) (w : World) :
  advance t (with_interval i w) =
  (with_interval i (fst (advance t w)), snd (advance t w)).
Proof.
  revert w. induction t as [|e k IH|X c k IH]; intros w; cbn [advance].
  - reflexivity.
  - rewrite run_effect_with_interval. apply IH.
  - rewrite issue_with_interval. reflexivity.
Qed.



(** What [exec] leaves alone. *)

Lemma settle_with_frame {X} (c : Call X) (w : World) :
  now (snd (settle_with b c w)) = now w /\
  trace (snd (settle_with b c w)) = trace w /\
  state (snd (settle_with b c w)) = state w /\
  interval (snd (settle_with b c w)) = interval w /\
  phase (snd (settle_with b c w)) = phase w.
Proof. destruct c; cbn; auto. Qed.

Lemma exec_frame (t : Async) (w : World) :
  now (exec b t w) = now w /\
  interval (exec b t w) = interval w /\
  phase (exec b t w) = phase w /\
  tasks (exec b t w) = tasks w /\
  trace w `prefix_of` trace (exec b t w).
Proof.
  revert w. induction t as [|e k IH|X c k IH]; intros w; cbn [exec].
  - auto.
  - destruct (IH (run_effect e w)) as (-> & -> & -> & -> & Hp).
    destruct (run_effect_frame e w) as (_ & -> & -> & -> & -> & Ht).
    repeat split; auto. rewrite Ht in Hp.
    etrans; [|exact Hp]. now apply prefix_app_r.
  - destruct (IH (fst (settle_with b c (issue c w)))
                 (snd (settle_with b c (issue c w))))
      as (-> & -> & -> & -> & Hp).
    destruct (settle_with_frame c (issue c w)) as (-> & Ht & _ & -> & ->).
    destruct (issue_frame c w) as (_ & _ & Etk & -> & -> & -> & _).
    repeat split; auto.
    + rewrite <- Etk. destruct c; reflexivity.
    + rewrite Ht in Hp. etrans; [|exact Hp].
      destruct c; cbn; repeat apply prefix_app_r; reflexivity.
Qed.

(** ** Counting the calls of a function *)




(** ** One step of [exec] at a time *)

Lemma exec_Do (e : Effect) (k : Async) (w : World) :
  exec b (Do e k) w = exec b k (run_effect e w).
Proof. reflexivity. Qed.

Lemma exec_getAuthToken (k : option Token -> Async) (w : World) :
  exec b (Await getAuthToken k) w = exec b (k (stored_token (storage w))) w.
Proof. reflexivity. Qed.

Lemma exec_getUserMetadata (k : UserMetadata -> Async) (w : World) :
  exec b (Await getUserMetadata k) w =
  exec b (k (stored_metadata (storage w))) w.
Proof. reflexivity. Qed.

Lemma exec_clearAuthData (k : unit -> Async) (w : World) :
  exec b (Await clearAuthData k) w =
  exec b (k tt)
       (with_storage (cleared (storage w)) (observe ObsClearAuthData w)).
Proof. reflexivity. Qed.

Lemma exec_profile (q : Request)
    (k : HttpResult (option Profile) -> Async) (w : World) :
  exec b (Await (axios_get_profile q) k) w =
  exec b (k (profile_result b)) (observe (ObsRequest q) w).
Proof. reflexivity. Qed.

Lemma exec_team_location (q : Request)
    (k : HttpResult (option TeamLocation) -> Async) (w : World) :
  exec b (Await (axios_get_team_location q) k) w =
  exec b (k (team_location_result b)) (observe (ObsRequest q) w).
Proof. reflexivity. Qed.

Lemma exec_nearby (q1 q2 : Request)
    (k : HttpResult (option (list Report) * option (list Panic)) -> Async)
    (w : World) :
  exec b (Await (axios_get_nearby q1 q2) k) w =
  exec b (k (Promise_all (nearby_reports_result b) (nearby_panics_result b)
                         (nearby_reports_first b)))
       (observe (ObsRequest q2) (observe (ObsRequest q1) w)).
Proof. reflexivity. Qed.

Lemma exec_search (q : Request) (k : HttpResult UserRecord -> Async)
    (w : World) :
  exec b (Await (axios_post_search q) k) w =
  exec b (k (search_result b)) (observe (ObsRequest q) w).
Proof. reflexivity. Qed.

Lemma storage_run_effect (e : Effect) (w : World) :
  storage (run_effect e w) = storage w.
Proof. destruct e; reflexivity. Qed.

End Exec.

(** Run [exec] as far as the program is known. *)
Ltac exec_steps :=
  repeat first [ rewrite exec_Do | rewrite exec_getAuthToken
               | rewrite exec_getUserMetadata | rewrite exec_clearAuthData
               | rewrite exec_profile | rewrite exec_team_location
               | rewrite exec_nearby | rewrite exec_search ];
  cbv beta; rewrite ?storage_run_effect.

(** * The session guard *)

Section Guard.

Variable cfg : BuildConfig.

Lemma initialWorld_offline (s : Storage) :
  truthy_token (stored_token s) = None -> offline (initialWorld s).
Proof. intros H. repeat split; auto. Qed.

Lemma redirects_prefix (tr tr' : list (N * Obs)) (p : string) :
  tr `prefix_of` tr' -> In p (redirects tr) -> In p (redirects tr').
Proof.
  intros [rest ->]. unfold redirects, effects.
  rewrite !omap_app, in_app_iff. auto.
Qed.

(** C5: mounted without a usable token, the screen navigates to
    /auth/login as soon as the token read settles, and whatever happens
    afterwards (interval ticks, searches, logout, any schedule) no
    request is ever issued. *)
Theorem no_token_no_backend_call (s : Storage) :
  truthy_token (stored_token s) = None ->
  (exists w1,
     run cfg (initialWorld s) [Mount; Resolve 0 Settled] = Some w1 /\
     redirects (trace w1) = ["/auth/login"] /\
     tasks w1 = [Done]) /\
  (forall evs w',
     run cfg (initialWorld s) (Mount :: Resolve 0 Settled :: evs) = Some w' ->
     In "/auth/login" (redirects (trace w'))) /\
  (forall evs w',
     run cfg (initialWorld s) evs = Some w' -> requests (trace w') = []).
Proof.
  intros Ht.
  assert (E1 : exists w1,
    run cfg (initialWorld s) [Mount; Resolve 0 Settled] = Some w1 /\
    redirects (trace w1) = ["/auth/login"] /\ tasks w1 = [Done]).
  { cbn. rewrite Ht. cbn. eexists. split; [reflexivity|]. split; reflexivity. }
  split; [exact E1|]. split.
  - intros evs w' Hrun. destruct E1 as (w1 & Hr1 & Hred & _).
    change (Mount :: Resolve 0 Settled :: evs)
      with ([Mount; Resolve 0 Settled] ++ evs) in Hrun.
    cbn in Hr1. cbn in Hrun. rewrite Ht in Hr1, Hrun. cbn in Hr1, Hrun.
    injection Hr1 as <-.
    apply run_trace in Hrun.
    eapply redirects_prefix; [exact Hrun|]. rewrite Hred. now left.
  - intros evs w' Hrun.
    apply (run_offline cfg evs _ _ (initialWorld_offline s Ht) Hrun).
Qed.

End Guard.

(** ** Another role than "security" *)

Section WrongRole.

Variable cfg : BuildConfig.

(** With a token and another role, the initialisation shows the alert,
    redirects, issues no request and ends. *)
Lemma wrong_role_alert_and_redirect (s : Storage) (token : Token) :
  truthy_token (stored_token s) = Some token ->
  role_is_not (stored_metadata s) "security" = true ->
  exists w1,
    run cfg (initialWorld s)
        [Mount; Resolve 0 Settled; Resolve 0 Settled] = Some w1 /\
    alerts (trace w1) = [("Access Denied", lit "Security access required")] /\
    redirects (trace w1) = ["/auth/login"] /\
    requests (trace w1) = [] /\
    tasks w1 = [Done] /\
    interval w1 = Some 30000.
Proof.
  intros Ht Hr. cbn. rewrite Ht. cbn. rewrite Hr. cbn.
  eexists. split; [reflexivity|]. repeat split; reflexivity.
Qed.

End WrongRole.

(** C1: with the token "tok" and the role "user" the mount shows the
    Access Denied alert and redirects to /auth/login without a request;
    the interval registered by the same mount fires 30 s later on the
    still mounted screen, and the loader it invokes, which checks the
    token only, requests the nearby reports and the nearby panics. *)
Theorem poll_fetches_for_other_role :
  let s := session (Some "tok") (Some "user") in
  let mount := [Mount; Resolve 0 Settled; Resolve 0 Settled] in
  let poll := [Elapse 30000; IntervalFire; Resolve 1 Settled] in
  observed alerts (run default_config (initialWorld s) mount)
    = Some [("Access Denied", lit "Security access required")] /\
  observed redirects (run default_config (initialWorld s) mount)
    = Some ["/auth/login"] /\
  observed requests (run default_config (initialWorld s) mount) = Some [] /\
  phase <$> run default_config (initialWorld s) (mount ++ poll)
    = Some Mounted /\
  observed requests (run default_config (initialWorld s) (mount ++ poll))
    = Some [get default_config "/api/security/nearby-reports" "tok" 15000;
            get default_config "/api/security/nearby-panics" "tok" 15000] /\
  observed (entries "loadNearbyData")
           (run default_config (initialWorld s) (mount ++ poll))
    = Some [30000].
Proof. cbv zeta. repeat apply conj; vm_compute; reflexivity. Qed.

Lemma no_token_no_backend_call_witness :
  exists w1,
    run default_config (initialWorld (session None None))
        [Mount; Resolve 0 Settled] = Some w1 /\
    redirects (trace w1) = ["/auth/login"] /\
    tasks w1 = [Done].
Proof.
  refine (proj1 (no_token_no_backend_call default_config
                   (session None None) _)).
  reflexivity.
Defined.

(** * The loaders *)

Section Loaders.

Variable cfg : BuildConfig.

Lemma continue_state (i : nat) (t : Async) (w : World) :
  state (continue i t w) = state (fst (advance t w)) /\
  storage (continue i t w) = storage (fst (advance t w)).
Proof. unfold continue. destruct (advance t w); auto. Qed.

(** ** What a settled request does *)

Lemma resume_fetchProfile (w : World) (i : nat) (token : Token)
    (next : Async) (r : HttpResult (option Profile)) :
  tasks w !! i = Some (fetchProfile cfg token next) ->
  resume i (ProfileResult r) w =
  Some (continue i
          match r with
          | Resolved (Some {| full_name := Some name |}) =>
              if truthy_string name
              then Do (setAgentName (split_first name)) next
              else next
          | _ => next
          end w).
Proof.
  intros H. unfold resume. rewrite H. cbn.
  destruct r as [[[[name|]]|]|]; reflexivity.
Qed.

Lemma resume_fetchTeamLocation (w : World) (i : nat) (token : Token)
    (next : Async) (r : HttpResult (option TeamLocation)) :
  tasks w !! i = Some (fetchTeamLocation cfg token next) ->
  resume i (TeamLocationResult r) w =
  Some (continue i
          match r with
          | Resolved data =>
              Do (setTeamLocation data)
                 match data with
                 | Some l => Do (setRadiusKm (or_ten (radius_km l))) next
                 | None => next
                 end
          | Rejected response =>
              if is401 response
              then Await clearAuthData
                     (fun _ => Do (router_replace "/auth/login") next)
              else next
          end w).
Proof.
  intros H. unfold resume. rewrite H. cbn.
  destruct r; reflexivity.
Qed.


(** ** How often a chain calls [loadNearbyData] *)








End Loaders.

(** ** The profile loader and a 401 *)

(** C2: the profile loader does not treat a 401 as the end of the
    session.  When the profile request of a mount is answered with 401,
    [clearAuthData] is not called and nothing redirects; the
    initialisation goes on and requests the team location with the same
    token. *)
Theorem profile_401_keeps_session :
  let evs :=
    [Mount; Resolve 0 Settled; Resolve 0 Settled; Resolve 0 Settled;
     Resolve 0 (ProfileResult
                  (Rejected (Some {| status := 401; detail := None |})));
     Resolve 0 Settled] in
  let r := run default_config (initialWorld security_session) evs in
  observed clears r = Some O /\
  observed redirects r = Some [] /\
  stored_token <$> (storage <$> r) = Some (Some "tok") /\
  observed requests r =
    Some [get default_config "/api/user/profile" "tok" 10000;
          get default_config "/api/security/team-location" "tok" 10000].
Proof. cbv zeta. repeat apply conj; vm_compute; reflexivity. Qed.

Section LoaderClaims.

Variable cfg : BuildConfig.


(** C9: when the team-location request of the initialisation resolves
    with a body, the location is stored and the radius is set to 10 when
    the body has no [radius_km], or one that is 0 or NaN, and to the
    [radius_km] of the body otherwise. *)
Theorem team_location_sets_radius (w : World) (i : nat) (token : Token)
    (l : TeamLocation) :
  tasks w !! i =
    Some (fetchTeamLocation cfg token
            (loadNearbyData cfg (Do (setLoading false) Done))) ->
  exists w',
    step cfg w (Resolve i (TeamLocationResult (Resolved (Some l))))
      = Some w' /\
    teamLocation (state w') = Some l /\
    (radius_km l = None -> radiusKm (state w') = ten) /\
    (forall r, radius_km l = Some r ->
       is_zero r \/ r = S754_nan -> radiusKm (state w') = ten) /\
    (forall r, radius_km l = Some r ->
       ~ (is_zero r \/ r = S754_nan) -> radiusKm (state w') = r).
Proof.
  intros Hi. cbn [step].
  rewrite (resume_fetchTeamLocation cfg w i token _ _ Hi).
  eexists. split; [reflexivity|].
  rewrite (proj1 (continue_state _ _ _)). cbn.
  split; [reflexivity|]. unfold or_ten.
  split; [|split].
  - now intros ->.
  - intros r -> [[s ->]| ->]; reflexivity.
  - intros r -> Hr. destruct r as [s|s| |s m e]; cbn; auto.
    + exfalso. apply Hr. left. now exists s.
    + exfalso. apply Hr. now right.
Qed.

End LoaderClaims.

(** C9, as stated, fails: a response with [radius_km] 0 sets the radius
    to 10, not to the 0 of the response. *)
Lemma radius_zero_becomes_ten :
  radius_km sample_location = Some zero /\
  radiusKm <$> (state <$>
    run default_config (initialWorld security_session)
      (mount_events (Resolved None) (Resolved (Some sample_location))))
  = Some ten /\
  strict_eq ten zero = false.
Proof. cbv zeta. repeat apply conj; vm_compute; reflexivity. Qed.


Lemma team_location_sets_radius_witness :
  exists w',
    step default_config locating_world
      (Resolve 0 (TeamLocationResult (Resolved (Some sample_location))))
      = Some w' /\
    teamLocation (state w') = Some sample_location /\
    (radius_km sample_location = None -> radiusKm (state w') = ten) /\
    (forall r, radius_km sample_location = Some r ->
       is_zero r \/ r = S754_nan -> radiusKm (state w') = ten) /\
    (forall r, radius_km sample_location = Some r ->
       ~ (is_zero r \/ r = S754_nan) -> radiusKm (state w') = r).
Proof.
  apply (team_location_sets_radius default_config locating_world 0%nat "tok").
  vm_compute. reflexivity.
Defined.

(** * Polling *)

Section Polling.

Variable cfg : BuildConfig.












(** ** The call at the end of the initialisation *)

Lemma exec_initializeScreen_guarded (b : Backend) (w : World)
    (token : Token) :
  truthy_token (stored_token (storage w)) = Some token ->
  role_is_not (stored_metadata (storage w)) "security" = false ->
  exec b (initializeScreen cfg) w =
  exec b (loadAgentProfile cfg
            (loadTeamLocation cfg
               (loadNearbyData cfg (Do (setLoading false) Done))))
       (run_effect (setLoading true)
          (run_effect (enter "initializeScreen") w)).
Proof.
  intros Ht Hr. unfold initializeScreen.
  cbn [exec settle_with issue fst snd].
  change (storage (run_effect (setLoading true)
                     (run_effect (enter "initializeScreen") w)))
    with (storage w).
  rewrite Ht. cbn [exec settle_with issue fst snd].
  change (storage (run_effect (setLoading true)
                     (run_effect (enter "initializeScreen") w)))
    with (storage w).
  rewrite Hr. reflexivity.
Qed.




End Polling.



(** * The search *)

Section Trim.

Lemma trimStart_nil_iff (s : jsstring) :
  trimStart s = [] <-> forallb is_white_space s = true.
Proof.
  induction s as [|c s IH]; cbn; [tauto|].
  destruct (is_white_space c); cbn; [exact IH|].
  split; discriminate.
Qed.

(** What [trimStart] leaves does not start with white space. *)
Lemma trimStart_head (s : jsstring) (c : N) (r : jsstring) :
  trimStart s = c :: r -> is_white_space c = false.
Proof.
  induction s as [|c' s IH]; cbn; [discriminate|].
  destruct (is_white_space c') eqn:E; [exact IH|].
  now intros [= <- _].
Qed.

Lemma trimStart_suffix (s : jsstring) : trimStart s `suffix_of` s.
Proof.
  induction s as [|c s IH]; cbn; [reflexivity|].
  destruct (is_white_space c); [|reflexivity].
  now apply suffix_cons_r.
Qed.

Lemma forallb_rev_ws (s : jsstring) :
  forallb is_white_space (rev s) = forallb is_white_space s.
Proof.
  induction s as [|c s IH]; cbn; [reflexivity|].
  rewrite forallb_app, IH. cbn. rewrite andb_true_r. apply andb_comm.
Qed.

(** [!s.trim()] holds exactly for the strings made of white space. *)
Lemma trim_nil_iff (s : jsstring) :
  trim s = [] <-> forallb is_white_space s = true.
Proof.
  unfold trim, trimEnd. split.
  - intros H. apply (f_equal (@rev N)) in H. rewrite rev_involutive in H.
    cbn in H. apply trimStart_nil_iff in H. rewrite forallb_rev_ws in H.
    destruct (trimStart s) as [|c r] eqn:E.
    + now apply trimStart_nil_iff.
    + apply trimStart_head in E. cbn in H. rewrite E in H. discriminate.
  - intros H. apply trimStart_nil_iff in H. rewrite H. reflexivity.
Qed.

Lemma truthy_trim (s : jsstring) :
  negb (truthy_string (trim s)) = forallb is_white_space s.
Proof.
  destruct (forallb is_white_space s) eqn:E.
  - apply trim_nil_iff in E. now rewrite E.
  - destruct (trim s) eqn:Et; [|reflexivity].
    apply trim_nil_iff in Et. congruence.
Qed.

End Trim.

Section Search.

Variable cfg : BuildConfig.

(** C6: a search whose input is empty or all white space shows the
    validation alert and ends without a call.  Any other input sets the
    busy flag and reads the token; when the read settles and a token is
    stored, the trimmed input is POSTed to /api/security/search-user;
    when none is stored the screen redirects to /auth/login and nothing
    is posted. *)
Theorem search_validates_then_posts (w : World) :
  interactive w = true ->
  searchLoading (state w) = false ->
  (exists w1,
     step cfg w PressSearch = Some w1 /\
     if forallb is_white_space (searchTerm (state w))
     then trace w1 =
            trace w ++
            [(now w, ObsEffect (enter "handleSearch"));
             (now w, ObsEffect (Alert_alert "Error"
                                  (lit "Please enter phone or email")))] /\
          tasks w1 = tasks w ++ [Done]
     else trace w1 =
            trace w ++
            [(now w, ObsEffect (enter "handleSearch"));
             (now w, ObsEffect (setSearchLoading true))] /\
          tasks w1 =
            tasks w ++ [suspended (handleSearch cfg (searchTerm (state w)))]) /\
  (forall w1 i,
     forallb is_white_space (searchTerm (state w)) = false ->
     tasks w1 !! i =
       Some (suspended (handleSearch cfg (searchTerm (state w)))) ->
     exists w2,
       step cfg w1 (Resolve i Settled) = Some w2 /\
       match truthy_token (stored_token (storage w1)) with
       | Some token =>
           trace w2 =
             trace w1 ++
             [(now w1, ObsRequest
                         (post cfg "/api/security/search-user"
                               (trim (searchTerm (state w))) token 15000))]
       | None =>
           trace w2 =
             trace w1 ++
             [(now w1, ObsEffect (router_replace "/auth/login"));
              (now w1, ObsEffect (setSearchLoading false))] /\
           tasks w2 !! i = Some Done
       end).
Proof.
  intros Hi Hl. split.
  - cbn [step]. rewrite Hi, Hl. cbn [andb negb].
    eexists. split; [reflexivity|].
    unfold spawn, handleSearch. cbn [advance].
    rewrite truthy_trim.
    destruct (forallb is_white_space (searchTerm (state w))); cbn;
      rewrite <- app_assoc; auto.
  - intros w1 i Hws Ht. cbn [step]. unfold resume.
    unfold handleSearch in Ht. cbn [suspended] in Ht.
    rewrite truthy_trim, Hws in Ht. cbn [suspended] in Ht.
    rewrite Ht. cbn [settle].
    eexists. split; [reflexivity|].
    pose proof (lookup_lt_Some _ _ _ Ht) as Hlt.
    destruct (truthy_token (stored_token (storage w1))) as [token|];
      unfold continue; cbn.
    + reflexivity.
    + rewrite <- app_assoc. split; [reflexivity|].
      now apply list_lookup_insert_eq.
Qed.

End Search.

(** C6, as stated, fails: after a confirmed logout has cleared the token,
    the search for "a" on the still mounted dashboard posts nothing; it
    redirects to /auth/login. *)
Lemma search_without_token_posts_nothing :
  let before :=
    run default_config dashboard_world
      [PressLogout; ConfirmLogout; Resolve 2 Settled; ChangeText (lit "a")] in
  let after :=
    run default_config dashboard_world
      [PressLogout; ConfirmLogout; Resolve 2 Settled; ChangeText (lit "a");
       PressSearch; Resolve 3 Settled] in
  trim (lit "a") = lit "a" /\
  interactive <$> before = Some true /\
  tasks <$> after = Some [Done; Done; Done; Done] /\
  observed requests after = observed requests before /\
  observed redirects before = Some ["/auth/login"] /\
  observed redirects after = Some ["/auth/login"; "/auth/login"].
Proof. cbv zeta. repeat apply conj; vm_compute; reflexivity. Qed.

Lemma search_validates_then_posts_witness :
  exists w1,
    step default_config dashboard_world PressSearch = Some w1 /\
    trace w1 =
      trace dashboard_world ++
      [(now dashboard_world, ObsEffect (enter "handleSearch"));
       (now dashboard_world,
        ObsEffect (Alert_alert "Error" (lit "Please enter phone or email")))] /\
    tasks w1 = tasks dashboard_world ++ [Done].
Proof.
  refine (proj1 (search_validates_then_posts default_config dashboard_world
                   _ _)).
  - vm_compute. reflexivity.
  - vm_compute. reflexivity.
Defined.

(** * What the screen shows to the outside *)

Section Shape.

Variable cfg : BuildConfig.

Lemma truthy_token_Some (o : option Token) (token : Token) :
  truthy_token o = Some token -> o = Some token /\ token <> "".
Proof.
  destruct o as [[|a t]|]; cbn; try discriminate.
  intros [= <-]. split; [reflexivity|discriminate].
Qed.

Lemma issue_trace {X} (c : Call X) (w : World) :
  trace (issue c w) = trace w ++ map (fun o => (now w, o)) (issued c).
Proof.
  destruct c; cbn; rewrite ?app_nil_r, <- ?app_assoc; reflexivity.
Qed.

Lemma advance_emits (P : Obs -> Prop) (t : Async) (w : World) :
  emits P t ->
  Forall (fun x => P (snd x)) (trace w) ->
  Forall (fun x => P (snd x)) (trace (fst (advance t w))) /\
  emits P (snd (advance t w)).
Proof.
  revert w. induction t as [|e k IH|X c k IH]; intros w He Hw.
  - cbn. auto.
  - cbn [advance]. destruct He as [Pe Hk]. apply IH; [exact Hk|].
    destruct (run_effect_frame e w) as (_ & _ & _ & _ & _ & ->).
    apply Forall_app. split; [exact Hw|]. repeat constructor. exact Pe.
  - cbn [advance fst snd]. split; [|exact He].
    destruct He as [Pc _]. rewrite issue_trace.
    apply Forall_app. split; [exact Hw|].
    apply Forall_map. eapply Forall_impl; [exact Pc|]. auto.
Qed.

(** An invariant of the event loop: everything shown so far satisfies
    [P], and so does everything the parked tasks can still show. *)
Lemma step_emits (P : Obs -> Prop) (ev : Event) (w w' : World) :
  P ObsInterval ->
  (forall s, P (ObsEffect (setSearchTerm s))) ->
  emits P (initializeScreen cfg) ->
  emits P (loadNearbyData cfg Done) ->
  (forall s, emits P (handleSearch cfg s)) ->
  emits P handleLogout ->
  emits P logoutConfirmed ->
  Forall (fun x => P (snd x)) (trace w) /\ Forall (emits P) (tasks w) ->
  step cfg w ev = Some w' ->
  Forall (fun x => P (snd x)) (trace w') /\ Forall (emits P) (tasks w').
Proof.
  intros Pi Ps Hinit Hnear Hsearch Hlogout Hconfirm [Htr Hts].
  assert (Hspawn : forall t w0,
    emits P t ->
    Forall (fun x => P (snd x)) (trace w0) -> Forall (emits P) (tasks w0) ->
    Forall (fun x => P (snd x)) (trace (spawn t w0)) /\
    Forall (emits P) (tasks (spawn t w0))).
  { intros t w0 Ht H1 H2.
    destruct (spawn_frame t w0) as (_ & -> & _ & _ & _ & ->).
    destruct (advance_emits P t w0 Ht H1) as [H3 H4].
    split; [exact H3|]. apply Forall_app. split; [exact H2|].
    rewrite <- (advance_suspended t w0). repeat constructor. exact H4. }
  destruct ev; cbn [step].
  - destruct (phase w); try discriminate. intros [= <-].
    apply (Hspawn _ (with_phase Mounted w)); assumption.
  - destruct (phase w); try discriminate. intros [= <-]. auto.
  - destruct (interval w); [destruct (_ <=? _); try discriminate|];
      intros [= <-]; auto.
  - destruct (interval w) as [due|]; try discriminate.
    destruct (_ =? _); try discriminate. intros [= <-].
    apply Hspawn; [assumption| |assumption].
    cbn. apply Forall_app. split; [assumption|]. repeat constructor.
    exact Pi.
  - destruct (interactive w); try discriminate. intros [= <-].
    split; [|exact Hts]. cbn.
    apply Forall_app. split; [assumption|]. repeat constructor. apply Ps.
  - destruct (_ && _); try discriminate. intros [= <-].
    apply Hspawn; auto.
  - destruct (interactive w); try discriminate. intros [= <-].
    apply Hspawn; auto.
  - destruct (logoutDialog w); try discriminate. intros [= <-].
    apply (Hspawn _ (with_logoutDialog false w)); auto.
  - destruct (logoutDialog w); try discriminate. intros [= <-]. auto.
  - unfold resume.
    destruct (tasks w !! i) as [[|e k|X c k]|] eqn:Ei; try discriminate.
    destruct (settle c a w) as [[x w1]|] eqn:Es; try discriminate.
    intros [= <-].
    pose proof (Forall_lookup_1 _ _ _ _ Hts Ei) as [_ Hk].
    assert (Hw1 : trace w1 = trace w /\ tasks w1 = tasks w).
    { destruct c; destruct a; cbn in Es; try discriminate;
        injection Es as <- <-; auto. }
    destruct Hw1 as [Et Ek].
    destruct (continue_frame i (k x) w1) as (_ & -> & _ & _ & _ & ->).
    destruct (advance_emits P (k x) w1 (Hk x)) as [H3 H4];
      [now rewrite Et|].
    split; [exact H3|]. rewrite Ek. apply Forall_insert; [exact Hts|].
    now rewrite <- (advance_suspended (k x) w1).
Qed.

(** ** The shape of every request and every navigation *)

Ltac shape :=
  cbn;
  repeat match goal with
         | |- _ /\ _ => split
         | |- Forall _ [] => constructor
         | |- Forall _ (_ :: _) => constructor
         | |- forall _, _ => intro
         end;
  try exact I; auto.

Lemma well_formed_get (path : string) (token : Token) (ms : N) :
  token <> "" -> ms = 10000 \/ ms = 15000 ->
  well_formed cfg (get cfg path token ms).
Proof.
  intros Ht Hms. repeat split; cbn; eauto.
Qed.

Lemma well_formed_post (path : string) (term : jsstring) (token : Token) :
  token <> "" -> well_formed cfg (post cfg path term token 15000).
Proof.
  intros Ht. repeat split; cbn; eauto. discriminate.
Qed.

Lemma expected_fetchProfile (token : Token) (next : Async) :
  token <> "" -> emits (expected cfg) next ->
  emits (expected cfg) (fetchProfile cfg token next).
Proof.
  intros Ht Hn. split.
  - constructor; [|constructor]. apply well_formed_get; auto.
  - intros r. destruct r as [[[[name|]]|]|]; cbn; auto.
    destruct (truthy_string name); shape.
Qed.

Lemma expected_loadAgentProfile (next : Async) :
  emits (expected cfg) next ->
  emits (expected cfg) (loadAgentProfile cfg next).
Proof.
  intros Hn. cbn. split; [exact I|]. split; [constructor|].
  intros token. destruct (truthy_token token) as [t|] eqn:E; [|exact Hn].
  apply truthy_token_Some in E as [_ E].
  now apply expected_fetchProfile.
Qed.

Lemma expected_fetchTeamLocation (token : Token) (next : Async) :
  token <> "" -> emits (expected cfg) next ->
  emits (expected cfg) (fetchTeamLocation cfg token next).
Proof.
  intros Ht Hn. split.
  - constructor; [|constructor]. apply well_formed_get; auto.
  - intros r. destruct r as [[l|]|e]; [shape|shape|].
    destruct (is401 e); shape.
Qed.

Lemma expected_loadTeamLocation (next : Async) :
  emits (expected cfg) next ->
  emits (expected cfg) (loadTeamLocation cfg next).
Proof.
  intros Hn. cbn. split; [exact I|]. split; [constructor|].
  intros token. destruct (truthy_token token) as [t|] eqn:E; [|exact Hn].
  apply truthy_token_Some in E as [_ E].
  now apply expected_fetchTeamLocation.
Qed.

Lemma expected_fetchNearby (token : Token) (next : Async) :
  token <> "" -> emits (expected cfg) next ->
  emits (expected cfg) (fetchNearby cfg token next).
Proof.
  intros Ht Hn. split.
  - constructor; [|constructor; [|constructor]];
      apply well_formed_get; auto.
  - intros r. destruct r as [[dr dp]|e]; [shape|].
    destruct (is401 e); shape.
Qed.

Lemma expected_loadNearbyData (next : Async) :
  emits (expected cfg) next ->
  emits (expected cfg) (loadNearbyData cfg next).
Proof.
  intros Hn. cbn. split; [exact I|]. split; [constructor|].
  intros token. destruct (truthy_token token) as [t|] eqn:E; [|exact Hn].
  apply truthy_token_Some in E as [_ E].
  now apply expected_fetchNearby.
Qed.

Lemma expected_initializeScreen : emits (expected cfg) (initializeScreen cfg).
Proof.
  cbn. split; [exact I|]. split; [exact I|]. split; [constructor|].
  intros token. destruct (truthy_token token); cbn; auto.
  split; [constructor|]. intros metadata.
  destruct (role_is_not metadata "security"); cbn; auto.
  split; [exact I|]. split; [constructor|].
  intros token'. destruct (truthy_token token') as [tok'|] eqn:E.
  - apply truthy_token_Some in E as [_ E].
    apply expected_fetchProfile; [exact E|].
    apply expected_loadTeamLocation, expected_loadNearbyData. cbn. auto.
  - apply expected_loadTeamLocation, expected_loadNearbyData. cbn. auto.
Qed.

Lemma expected_handleSearch (s : jsstring) :
  emits (expected cfg) (handleSearch cfg s).
Proof.
  unfold handleSearch. cbn. split; [exact I|].
  destruct (negb (truthy_string (trim s))); cbn; auto.
  split; [exact I|]. split; [constructor|].
  intros token. destruct (truthy_token token) as [t|] eqn:E; cbn; auto.
  apply truthy_token_Some in E as [_ E].
  split.
  - constructor; [|constructor]. now apply well_formed_post.
  - intros r. destruct r as [d|e]; [shape|].
    destruct (is401 e); shape.
Qed.

Lemma run_emits (P : Obs -> Prop) (evs : list Event) (w w' : World) :
  P ObsInterval ->
  (forall s, P (ObsEffect (setSearchTerm s))) ->
  emits P (initializeScreen cfg) ->
  emits P (loadNearbyData cfg Done) ->
  (forall s, emits P (handleSearch cfg s)) ->
  emits P handleLogout ->
  emits P logoutConfirmed ->
  Forall (fun x => P (snd x)) (trace w) /\ Forall (emits P) (tasks w) ->
  run cfg w evs = Some w' ->
  Forall (fun x => P (snd x)) (trace w') /\ Forall (emits P) (tasks w').
Proof.
  intros Pi Ps H1 H2 H3 H4 H5. revert w.
  induction evs as [|ev evs IH]; intros w Hw; cbn.
  - now intros [= <-].
  - destruct (step cfg w ev) as [w1|] eqn:E; [|discriminate].
    apply IH. eapply step_emits; eauto.
Qed.

Lemma expected_requests (tr : list (N * Obs)) :
  Forall (fun x => expected cfg (snd x)) tr ->
  Forall (well_formed cfg) (requests tr).
Proof.
  induction 1 as [|[t o] tr Ho _ IH]; cbn; [constructor|].
  destruct o as [e|q| |]; cbn; auto.
Qed.

Lemma expected_redirects (tr : list (N * Obs)) :
  Forall (fun x => expected cfg (snd x)) tr ->
  Forall (fun p => p = "/auth/login") (redirects tr).
Proof.
  induction 1 as [|[t o] tr Ho _ IH]; cbn; [constructor|].
  destruct o as [e|q| |]; cbn; auto.
  destruct e; cbn; auto.
Qed.

(** X1: in every schedule, every request the screen issues goes to a path
    under the backend URL of the build, carries "Bearer " followed by a
    token that is not empty, has a timeout of 10 or 15 seconds and, when it
    is a GET, no body; and every [router.replace] goes to /auth/login. *)
Theorem requests_well_formed (s : Storage) (evs : list Event) (w' : World) :
  run cfg (initialWorld s) evs = Some w' ->
  Forall (well_formed cfg) (requests (trace w')) /\
  Forall (fun p => p = "/auth/login") (redirects (trace w')).
Proof.
  intros Hrun.
  assert (Hinv : Forall (fun x => expected cfg (snd x)) (trace w')).
  { eapply (run_emits (expected cfg) evs (initialWorld s) w');
      try exact Hrun; try exact I.
    - intros s0. exact I.
    - apply expected_initializeScreen.
    - apply expected_loadNearbyData. exact I.
    - apply expected_handleSearch.
    - shape.
    - shape.
    - split; constructor. }
  split; [now apply expected_requests | now apply expected_redirects].
Qed.

End Shape.

Lemma requests_well_formed_witness :
  Forall (well_formed default_config) (requests (trace polling_world)) /\
  Forall (fun p => p = "/auth/login") (redirects (trace polling_world)).
Proof.
  apply (requests_well_formed default_config security_session
           (mount_events (Resolved (Some sample_profile))
                         (Resolved (Some sample_location))
            ++ [Resolve 0 Settled;
                Resolve 0 (NearbyResult (Resolved (Some []))
                                        (Resolved (Some [])) true);
                Elapse 30000; IntervalFire; Resolve 1 Settled])).
  vm_compute. reflexivity.
Defined.

(** * What each function does when its calls settle at once *)

Section Returns.

Variable cfg : BuildConfig.
Variable b : Backend.

#[local] Arguments lit : simpl never.
#[local] Arguments trim : simpl never.
#[local] Arguments split_first : simpl never.

Lemma requests_app (tr1 tr2 : list (N * Obs)) :
  requests (tr1 ++ tr2) = requests tr1 ++ requests tr2.
Proof. apply omap_app. Qed.

Lemma clears_app (tr1 tr2 : list (N * Obs)) :
  clears (tr1 ++ tr2) = (clears tr1 + clears tr2)%nat.
Proof. unfold clears. now rewrite omap_app, length_app. Qed.

Lemma redirects_app (tr1 tr2 : list (N * Obs)) :
  redirects (tr1 ++ tr2) = redirects tr1 ++ redirects tr2.
Proof. unfold redirects, effects. now rewrite !omap_app. Qed.

Lemma alerts_app (tr1 tr2 : list (N * Obs)) :
  alerts (tr1 ++ tr2) = alerts tr1 ++ alerts tr2.
Proof. unfold alerts, effects. now rewrite !omap_app. Qed.

Lemma pushes_app (tr1 tr2 : list (N * Obs)) :
  pushes (tr1 ++ tr2) = pushes tr1 ++ pushes tr2.
Proof. unfold pushes, effects. now rewrite !omap_app. Qed.

(** Rewrite the readings of a trace that was extended step by step. *)
Ltac readings :=
  cbn [trace storage state run_effect observe with_state with_storage
       with_logoutDialog issue settle_with fst snd exec];
  rewrite ?requests_app, ?clears_app, ?redirects_app, ?alerts_app,
    ?pushes_app;
  cbn;
  rewrite ?app_nil_r, ?Nat.add_0_r, ?Nat.add_1_r.

Ltac done_by_reading :=
  readings; repeat apply conj; rewrite <- ?app_assoc; try reflexivity; auto.

(** X2: the profile loader never clears the session, never navigates and
    never alerts, whatever the backend answers, a 401 included.  It
    requests the profile only when a token is stored, and changes no cell
    but [agentName], which becomes the part of [full_name] before its
    first space when [full_name] is a string that is not empty. *)
Theorem loadAgentProfile_returns (w : World) :
  exists w1,
    (forall next, exec b (loadAgentProfile cfg next) w = exec b next w1) /\
    storage w1 = storage w /\
    clears (trace w1) = clears (trace w) /\
    redirects (trace w1) = redirects (trace w) /\
    alerts (trace w1) = alerts (trace w) /\
    requests (trace w1) =
      requests (trace w) ++
      match truthy_token (stored_token (storage w)) with
      | Some token => [get cfg "/api/user/profile" token 10000]
      | None => []
      end /\
    same_but_agentName (state w) (state w1) /\
    agentName (state w1) =
      match truthy_token (stored_token (storage w)), profile_result b with
      | Some _, Resolved (Some {| full_name := Some name |}) =>
          if truthy_string name then split_first name
          else agentName (state w)
      | _, _ => agentName (state w)
      end.
Proof.
  unfold same_but_agentName.
  destruct (truthy_token (stored_token (storage w))) as [token|] eqn:Et.
  - destruct (profile_result b) as [[[[name|]]|]|e] eqn:Ep;
      [destruct (truthy_string name) eqn:En| | |];
      (eexists; split;
       [intros next; unfold loadAgentProfile; exec_steps; rewrite Et;
        unfold fetchProfile; exec_steps; rewrite Ep, ?En; exec_steps;
        reflexivity|]);
      done_by_reading.
  - eexists. split;
      [intros next; unfold loadAgentProfile; exec_steps; rewrite Et;
       reflexivity|].
    done_by_reading.
Qed.

(** X3: the team-location loader ends the session exactly when its
    request is rejected with status 401: then it calls [clearAuthData]
    once, the store is cleared, it redirects once to /auth/login, and no
    cell changes.  Rejected otherwise it changes nothing at all; resolved
    it stores the body and, when the body is not null, the radius.  It
    never alerts, and without a token it does nothing. *)
Theorem loadTeamLocation_returns (w : World) :
  exists w1,
    (forall next, exec b (loadTeamLocation cfg next) w = exec b next w1) /\
    alerts (trace w1) = alerts (trace w) /\
    match truthy_token (stored_token (storage w)), team_location_result b with
    | None, _ =>
        storage w1 = storage w /\ state w1 = state w /\
        requests (trace w1) = requests (trace w) /\
        clears (trace w1) = clears (trace w) /\
        redirects (trace w1) = redirects (trace w)
    | Some token, result =>
        requests (trace w1) =
          requests (trace w) ++
          [get cfg "/api/security/team-location" token 10000] /\
        match result with
        | Resolved data =>
            storage w1 = storage w /\
            clears (trace w1) = clears (trace w) /\
            redirects (trace w1) = redirects (trace w) /\
            teamLocation (state w1) = data /\
            radiusKm (state w1) =
              match data with
              | Some l => or_ten (radius_km l)
              | None => radiusKm (state w)
              end
        | Rejected response =>
            state w1 = state w /\
            if is401 response
            then storage w1 = cleared (storage w) /\
                 clears (trace w1) = S (clears (trace w)) /\
                 redirects (trace w1) = redirects (trace w) ++ ["/auth/login"]
            else storage w1 = storage w /\
                 clears (trace w1) = clears (trace w) /\
                 redirects (trace w1) = redirects (trace w)
        end
    end.
Proof.
  destruct (truthy_token (stored_token (storage w))) as [token|] eqn:Et.
  - destruct (team_location_result b) as [[l|]|e] eqn:Ep;
      [| |destruct (is401 e) eqn:E4];
      (eexists; split;
       [intros next; unfold loadTeamLocation; exec_steps; rewrite Et;
        unfold fetchTeamLocation; exec_steps; rewrite Ep, ?E4; exec_steps;
        reflexivity|]);
      done_by_reading.
  - eexists. split;
      [intros next; unfold loadTeamLocation; exec_steps; rewrite Et;
       reflexivity|].
    done_by_reading.
Qed.

(** X4: the nearby-data loader issues its two requests, reports first,
    only when a token is stored.  It ends the session exactly when
    [Promise.all] rejects with status 401: one [clearAuthData], the store
    cleared, one redirect to /auth/login.  It touches no cell but the two
    lists, and those only when both requests resolved. *)
Theorem loadNearbyData_returns (w : World) :
  exists w1,
    (forall next, exec b (loadNearbyData cfg next) w = exec b next w1) /\
    alerts (trace w1) = alerts (trace w) /\
    teamLocation (state w1) = teamLocation (state w) /\
    radiusKm (state w1) = radiusKm (state w) /\
    loading (state w1) = loading (state w) /\
    searchLoading (state w1) = searchLoading (state w) /\
    searchTerm (state w1) = searchTerm (state w) /\
    agentName (state w1) = agentName (state w) /\
    match truthy_token (stored_token (storage w)) with
    | None =>
        storage w1 = storage w /\ state w1 = state w /\
        requests (trace w1) = requests (trace w) /\
        clears (trace w1) = clears (trace w) /\
        redirects (trace w1) = redirects (trace w)
    | Some token =>
        requests (trace w1) =
          requests (trace w) ++
          [get cfg "/api/security/nearby-reports" token 15000;
           get cfg "/api/security/nearby-panics" token 15000] /\
        match Promise_all (nearby_reports_result b) (nearby_panics_result b)
                          (nearby_reports_first b) with
        | Resolved (reports, panics) =>
            storage w1 = storage w /\
            clears (trace w1) = clears (trace w) /\
            redirects (trace w1) = redirects (trace w) /\
            nearbyReports (state w1) = or_empty reports /\
            nearbyPanics (state w1) = or_empty panics
        | Rejected response =>
            state w1 = state w /\
            if is401 response
            then storage w1 = cleared (storage w) /\
                 clears (trace w1) = S (clears (trace w)) /\
                 redirects (trace w1) = redirects (trace w) ++ ["/auth/login"]
            else storage w1 = storage w /\
                 clears (trace w1) = clears (trace w) /\
                 redirects (trace w1) = redirects (trace w)
        end
    end.
Proof.
  destruct (truthy_token (stored_token (storage w))) as [token|] eqn:Et.
  - destruct (Promise_all (nearby_reports_result b) (nearby_panics_result b)
                          (nearby_reports_first b))
      as [[reports panics]|e] eqn:Ep;
      [|destruct (is401 e) eqn:E4];
      (eexists; split;
       [intros next; unfold loadNearbyData; exec_steps; rewrite Et;
        unfold fetchNearby; exec_steps; rewrite Ep, ?E4; exec_steps;
        reflexivity|]);
      done_by_reading.
  - eexists. split;
      [intros next; unfold loadNearbyData; exec_steps; rewrite Et;
       reflexivity|].
    done_by_reading.
Qed.


(** X6: what a search does.  A blank input shows the validation alert and
    changes nothing.  Any other input ends with the busy flag off (the
    [finally] block), on every path, and with every other cell as it was.
    Without a token it redirects to /auth/login and posts nothing; with
    one it posts the trimmed input, then: on success pushes
    /security/user-track with the record; on 401 alerts "Session
    Expired", clears the session and redirects; on any other error alerts
    "Not Found" with the detail of the backend, or "User not found" when
    there is none. *)
Theorem handleSearch_returns (w : World) (term : jsstring) :
  let w1 := exec b (handleSearch cfg term) w in
  if forallb is_white_space term
  then state w1 = state w /\ storage w1 = storage w /\
       requests (trace w1) = requests (trace w) /\
       redirects (trace w1) = redirects (trace w) /\
       alerts (trace w1) =
         alerts (trace w) ++ [("Error", lit "Please enter phone or email")]
  else
    searchLoading (state w1) = false /\
    teamLocation (state w1) = teamLocation (state w) /\
    nearbyReports (state w1) = nearbyReports (state w) /\
    nearbyPanics (state w1) = nearbyPanics (state w) /\
    radiusKm (state w1) = radiusKm (state w) /\
    searchTerm (state w1) = searchTerm (state w) /\
    loading (state w1) = loading (state w) /\
    agentName (state w1) = agentName (state w) /\
    match truthy_token (stored_token (storage w)) with
    | None =>
        storage w1 = storage w /\
        requests (trace w1) = requests (trace w) /\
        alerts (trace w1) = alerts (trace w) /\
        redirects (trace w1) = redirects (trace w) ++ ["/auth/login"]
    | Some token =>
        requests (trace w1) =
          requests (trace w) ++
          [post cfg "/api/security/search-user" (trim term) token 15000] /\
        match search_result b with
        | Resolved data =>
            storage w1 = storage w /\
            alerts (trace w1) = alerts (trace w) /\
            redirects (trace w1) = redirects (trace w) /\
            pushes (trace w1) =
              pushes (trace w) ++ [("/security/user-track", userData data)]
        | Rejected response =>
            pushes (trace w1) = pushes (trace w) /\
            if is401 response
            then storage w1 = cleared (storage w) /\
                 clears (trace w1) = S (clears (trace w)) /\
                 redirects (trace w1) =
                   redirects (trace w) ++ ["/auth/login"] /\
                 alerts (trace w1) =
                   alerts (trace w) ++
                   [("Session Expired", lit "Please login again")]
            else storage w1 = storage w /\
                 clears (trace w1) = clears (trace w) /\
                 redirects (trace w1) = redirects (trace w) /\
                 alerts (trace w1) =
                   alerts (trace w) ++
                   [("Not Found",
                     match response with
                     | Some {| detail := Some d |} =>
                         if truthy_string d then d else lit "User not found"
                     | _ => lit "User not found"
                     end)]
        end
    end.
Proof.
  cbv zeta. unfold handleSearch. exec_steps. rewrite truthy_trim.
  destruct (forallb is_white_space term).
  - exec_steps. done_by_reading.
  - exec_steps.
    destruct (truthy_token (stored_token (storage w))) as [token|].
    + unfold postSearch. exec_steps.
      destruct (search_result b) as [data|e]; [|destruct (is401 e)];
        exec_steps; done_by_reading.
    + exec_steps. done_by_reading.
Qed.

End Returns.


(** * The initialisation as a whole *)

Section Compose.

Variable cfg : BuildConfig.
Variable b : Backend.

Lemma profile_then (w : World) (token : Token) :
  truthy_token (stored_token (storage w)) = Some token ->
  exists w1,
    (forall next, exec b (loadAgentProfile cfg next) w = exec b next w1) /\
    storage w1 = storage w /\
    requests (trace w1) =
      requests (trace w) ++ [get cfg "/api/user/profile" token 10000].
Proof.
  intros Ht.
  destruct (profile_result b) as [[[[name|]]|]|e] eqn:Ep;
    [destruct (truthy_string name) eqn:En| | |];
    (eexists; split;
     [intros next; unfold loadAgentProfile; exec_steps; rewrite Ht;
      unfold fetchProfile; exec_steps; rewrite Ep, ?En; exec_steps;
      reflexivity|]);
    cbn [trace storage state run_effect observe with_state];
    rewrite ?requests_app; cbn; rewrite ?app_nil_r; auto.
Qed.

Lemma location_then (w : World) (token : Token) :
  truthy_token (stored_token (storage w)) = Some token ->
  exists w1,
    (forall next, exec b (loadTeamLocation cfg next) w = exec b next w1) /\
    storage w1 =
      (if location_unauthorized b then cleared (storage w) else storage w) /\
    requests (trace w1) =
      requests (trace w) ++
      [get cfg "/api/security/team-location" token 10000].
Proof.
  intros Ht. unfold location_unauthorized.
  destruct (team_location_result b) as [[l|]|e] eqn:Ep;
    [| |destruct (is401 e) eqn:E4];
    (eexists; split;
     [intros next; unfold loadTeamLocation; exec_steps; rewrite Ht;
      unfold fetchTeamLocation; exec_steps; rewrite Ep, ?E4; exec_steps;
      reflexivity|]);
    cbn [trace storage state run_effect observe with_state with_storage
         settle_with issue fst snd];
    rewrite ?requests_app; cbn; rewrite ?app_nil_r; auto.
Qed.

Lemma nearby_then (w : World) :
  exists w1,
    (forall next, exec b (loadNearbyData cfg next) w = exec b next w1) /\
    requests (trace w1) =
      requests (trace w) ++
      match truthy_token (stored_token (storage w)) with
      | Some token =>
          [get cfg "/api/security/nearby-reports" token 15000;
           get cfg "/api/security/nearby-panics" token 15000]
      | None => []
      end.
Proof.
  destruct (truthy_token (stored_token (storage w))) as [token|] eqn:Et.
  - destruct (Promise_all (nearby_reports_result b) (nearby_panics_result b)
                          (nearby_reports_first b))
      as [[reports panics]|e] eqn:Ep;
      [|destruct (is401 e) eqn:E4];
      (eexists; split;
       [intros next; unfold loadNearbyData; exec_steps; rewrite Et;
        unfold fetchNearby; exec_steps; rewrite Ep, ?E4; exec_steps;
        reflexivity|]);
      cbn [trace storage state run_effect observe with_state with_storage
           settle_with issue fst snd];
      rewrite ?requests_app; cbn; rewrite ?app_nil_r, <- ?app_assoc; auto.
  - eexists. split;
      [intros next; unfold loadNearbyData; exec_steps; rewrite Et;
       reflexivity|].
    cbn [trace run_effect observe with_state].
    rewrite ?requests_app; cbn; rewrite ?app_nil_r; auto.
Qed.

(** X7: the requests of an initialisation, in order.  When the guard
    fails (no token, or a role other than security) there is none.  When
    it passes: the profile, then the team location, then the nearby
    reports and the nearby panics, all with the stored token; the two
    nearby requests are left out exactly when the team-location request
    was rejected with 401, which has cleared the token.  A rejected
    profile request, with whatever status, stops nothing. *)
Theorem initializeScreen_requests (w : World) :
  requests (trace (exec b (initializeScreen cfg) w)) =
  requests (trace w) ++
  match truthy_token (stored_token (storage w)) with
  | None => []
  | Some token =>
      if role_is_not (stored_metadata (storage w)) "security" then []
      else [get cfg "/api/user/profile" token 10000;
            get cfg "/api/security/team-location" token 10000] ++
           (if location_unauthorized b then []
            else [get cfg "/api/security/nearby-reports" token 15000;
                  get cfg "/api/security/nearby-panics" token 15000])
  end.
Proof.
  destruct (truthy_token (stored_token (storage w))) as [token|] eqn:Ht.
  - destruct (role_is_not (stored_metadata (storage w)) "security") eqn:Hr.
    + unfold initializeScreen. cbn [exec settle_with issue fst snd].
      change (storage (run_effect (setLoading true)
                         (run_effect (enter "initializeScreen") w)))
        with (storage w).
      rewrite Ht. cbn [exec settle_with issue fst snd].
      change (storage (run_effect (setLoading true)
                         (run_effect (enter "initializeScreen") w)))
        with (storage w).
      rewrite Hr. cbn [exec trace run_effect observe with_state].
      rewrite ?requests_app. cbn. now rewrite ?app_nil_r.
    + rewrite (exec_initializeScreen_guarded cfg b w token Ht Hr).
      set (w0 := run_effect (setLoading true)
                   (run_effect (enter "initializeScreen") w)).
      assert (Hs0 : storage w0 = storage w) by reflexivity.
      assert (Hr0 : requests (trace w0) = requests (trace w)).
      { subst w0. cbn [trace run_effect observe with_state].
        rewrite ?requests_app. cbn. now rewrite ?app_nil_r. }
      destruct (profile_then w0 token) as (w1 & E1 & S1 & R1);
        [now rewrite Hs0|].
      rewrite E1.
      destruct (location_then w1 token) as (w2 & E2 & S2 & R2);
        [now rewrite S1, Hs0|].
      rewrite E2.
      destruct (nearby_then w2) as (w3 & E3 & R3).
      rewrite E3. cbn [exec trace run_effect observe with_state].
      rewrite requests_app, R3, R2, R1, Hr0, S2, S1, Hs0. cbn [requests omap].
      destruct (location_unauthorized b); cbn [cleared stored_token truthy_token].
      * now rewrite ?app_nil_r, <- ?app_assoc.
      * rewrite Ht. now rewrite ?app_nil_r, <- ?app_assoc.
  - unfold initializeScreen. cbn [exec settle_with issue fst snd].
    change (storage (run_effect (setLoading true)
                       (run_effect (enter "initializeScreen") w)))
      with (storage w).
    rewrite Ht. cbn [exec trace run_effect observe with_state].
    rewrite ?requests_app. cbn. now rewrite ?app_nil_r.
Qed.

(** X8: the loading view is dismissed exactly by an initialisation whose
    guard passed, and then whatever the backend answers, rejections and
    401s included; when the guard fails, [loading] stays [true]. *)
Theorem initializeScreen_loading (w : World) :
  loading (state (exec b (initializeScreen cfg) w)) =
  match truthy_token (stored_token (storage w)) with
  | None => true
  | Some _ => role_is_not (stored_metadata (storage w)) "security"
  end.
Proof.
  destruct (truthy_token (stored_token (storage w))) as [token|] eqn:Ht.
  - destruct (role_is_not (stored_metadata (storage w)) "security") eqn:Hr.
    + unfold initializeScreen. cbn [exec settle_with issue fst snd].
      change (storage (run_effect (setLoading true)
                         (run_effect (enter "initializeScreen") w)))
        with (storage w).
      rewrite Ht. cbn [exec settle_with issue fst snd].
      change (storage (run_effect (setLoading true)
                         (run_effect (enter "initializeScreen") w)))
        with (storage w).
      rewrite Hr. reflexivity.
    + rewrite (exec_initializeScreen_guarded cfg b w token Ht Hr).
      set (w0 := run_effect (setLoading true)
                   (run_effect (enter "initializeScreen") w)).
      assert (Hs0 : storage w0 = storage w) by reflexivity.
      destruct (profile_then w0 token) as (w1 & E1 & S1 & _);
        [now rewrite Hs0|].
      rewrite E1.
      destruct (location_then w1 token) as (w2 & E2 & _);
        [now rewrite S1, Hs0|].
      rewrite E2.
      destruct (nearby_then w2) as (w3 & E3 & _).
      rewrite E3. reflexivity.
  - unfold initializeScreen. cbn [exec settle_with issue fst snd].
    change (storage (run_effect (setLoading true)
                       (run_effect (enter "initializeScreen") w)))
      with (storage w).
    rewrite Ht. reflexivity.
Qed.

End Compose.

(** * Sessions that never see the dashboard *)

Section Waiting.

Variable cfg : BuildConfig.
Variable T : option Token -> Prop.
Variable M : UserMetadata -> Prop.

(** Clearing the session keeps it turned away. *)
Hypothesis T_cleared : T None.
Hypothesis M_cleared : M {| role := None |}.

(** The guard turns the session away. *)
Hypothesis guard_fails :
  forall token metadata,
    T token -> M metadata ->
    truthy_token token = None \/ role_is_not metadata "security" = true.

Lemma run_effect_waiting (e : Effect) (w : World) :
  keeps_waiting e ->
  loading (state w) = true -> logoutDialog w = false ->
  loading (state (run_effect e w)) = true /\
  logoutDialog (run_effect e w) = false.
Proof.
  intros He Hl Hd. destruct e; cbn in *; auto; try contradiction.
  destruct v; [auto|contradiction].
Qed.

Lemma advance_waiting (t : Async) (w : World) :
  under T M keeps_waiting t ->
  loading (state w) = true -> logoutDialog w = false ->
  loading (state (fst (advance t w))) = true /\
  logoutDialog (fst (advance t w)) = false /\
  under T M keeps_waiting (snd (advance t w)).
Proof.
  revert w. induction t as [|e k IH|X c k IH]; intros w Hu Hl Hd.
  - cbn. auto.
  - cbn [advance]. destruct Hu as [He Hk].
    destruct (run_effect_waiting e w He Hl Hd) as [Hl' Hd'].
    apply IH; assumption.
  - cbn [advance fst snd].
    destruct (issue_frame c w) as (_ & -> & _ & _ & _ & _ & ->). auto.
Qed.

Lemma under_initializeScreen : under T M keeps_waiting (initializeScreen cfg).
Proof.
  cbn. split; [exact I|]. split; [exact I|].
  intros token Ht. destruct (truthy_token token) as [tok|] eqn:Et; cbn; auto.
  intros metadata Hm.
  destruct (guard_fails token metadata Ht Hm) as [E|E]; [congruence|].
  rewrite E. cbn. auto.
Qed.

Lemma under_loadNearbyData : under T M keeps_waiting (loadNearbyData cfg Done).
Proof.
  cbn. split; [exact I|].
  intros token _. destruct (truthy_token token); cbn; auto.
  intros [[reports panics]|e]; cbn; auto.
  destruct (is401 e); cbn; auto.
Qed.

Lemma step_waiting (ev : Event) (w w' : World) :
  waiting T M w -> step cfg w ev = Some w' -> waiting T M w'.
Proof.
  intros (Ht & Hm & Hts & Hl & Hd).
  assert (Hspawn : forall t w0,
    under T M keeps_waiting t ->
    waiting T M w0 -> waiting T M (spawn t w0)).
  { intros t w0 Hu (Ht0 & Hm0 & Hts0 & Hl0 & Hd0).
    destruct (spawn_frame t w0) as (Es & Ek & _).
    destruct (advance_waiting t w0 Hu Hl0 Hd0) as (Hl1 & Hd1 & Hu1).
    unfold waiting. rewrite Es, Ek. repeat split; auto.
    - apply Forall_app. split; [exact Hts0|].
      rewrite <- (advance_suspended t w0). repeat constructor. exact Hu1.
    - unfold spawn. destruct (advance t w0); exact Hl1.
    - unfold spawn. destruct (advance t w0); exact Hd1. }
  destruct ev; cbn [step].
  - destruct (phase w); try discriminate. intros [= <-].
    apply (Hspawn _ (with_phase Mounted w) under_initializeScreen).
    repeat split; assumption.
  - destruct (phase w); try discriminate. intros [= <-].
    repeat split; assumption.
  - destruct (interval w); [destruct (_ <=? _); try discriminate|];
      intros [= <-]; repeat split; assumption.
  - destruct (interval w) as [due|]; try discriminate.
    destruct (_ =? _); try discriminate. intros [= <-].
    apply Hspawn; [exact under_loadNearbyData|]. repeat split; assumption.
  - unfold interactive. rewrite Hl. destruct (phase w); discriminate.
  - unfold interactive. rewrite Hl. destruct (phase w); discriminate.
  - unfold interactive. rewrite Hl. destruct (phase w); discriminate.
  - rewrite Hd. discriminate.
  - rewrite Hd. discriminate.
  - unfold resume.
    destruct (tasks w !! i) as [[|e k|X c k]|] eqn:Ei; try discriminate.
    destruct (settle c a w) as [[x w1]|] eqn:Es; try discriminate.
    intros [= <-].
    pose proof (Forall_lookup_1 _ _ _ _ Hts Ei) as Hu.
    assert (H1 : under T M keeps_waiting (k x) /\
                 T (stored_token (storage w1)) /\
                 M (stored_metadata (storage w1)) /\
                 tasks w1 = tasks w /\
                 loading (state w1) = true /\ logoutDialog w1 = false).
    { destruct c; destruct a; cbn in Es; try discriminate;
        injection Es as <- <-; cbn in Hu; cbn; auto 10. }
    destruct H1 as (Hk & Ht1 & Hm1 & Ek & Hl1 & Hd1).
    destruct (continue_frame i (k x) w1) as (Es' & Ek' & _).
    destruct (advance_waiting (k x) w1 Hk Hl1 Hd1) as (Hl2 & Hd2 & Hu2).
    unfold waiting. rewrite Es', Ek', Ek. repeat split; auto.
    + apply Forall_insert; [exact Hts|].
      now rewrite <- (advance_suspended (k x) w1).
    + unfold continue. destruct (advance (k x) w1); exact Hl2.
    + unfold continue. destruct (advance (k x) w1); exact Hd2.
Qed.

Lemma run_waiting (evs : list Event) (w w' : World) :
  waiting T M w -> run cfg w evs = Some w' -> waiting T M w'.
Proof.
  revert w. induction evs as [|ev evs IH]; intros w Hw; cbn.
  - now intros [= <-].
  - destruct (step cfg w ev) as [w1|] eqn:E; [|discriminate].
    apply IH. eapply step_waiting; eauto.
Qed.

End Waiting.

(** X9: when no token is stored, or the stored role is not security, the
    screen never leaves its loading view, whatever happens and for as long
    as it stays mounted: [loading] is never set to false, so nothing of
    the dashboard is rendered and neither the search nor the logout can be
    used. *)
Theorem turned_away_keeps_loading (cfg : BuildConfig) (s : Storage)
    (evs : list Event) (w' : World) :
  truthy_token (stored_token s) = None \/
  role_is_not (stored_metadata s) "security" = true ->
  run cfg (initialWorld s) evs = Some w' ->
  loading (state w') = true /\
  Render.render (state w') = Render.LoadingView /\
  interactive w' = false /\
  logoutDialog w' = false.
Proof.
  intros Hg Hrun.
  assert (Hw : loading (state w') = true /\ logoutDialog w' = false).
  { destruct Hg as [Hg|Hg].
    - pose proof (run_waiting cfg
                    (fun token => truthy_token token = None)
                    (fun _ => True) eq_refl I
                    (fun token metadata Ht _ => or_introl Ht)
                    evs (initialWorld s) w') as Hw.
      destruct Hw as (_ & _ & _ & Hl & Hd); auto.
      repeat split; auto.
    - pose proof (run_waiting cfg
                    (fun _ => True)
                    (fun metadata => role_is_not metadata "security" = true)
                    I eq_refl
                    (fun token metadata _ Hm => or_intror Hm)
                    evs (initialWorld s) w') as Hw.
      destruct Hw as (_ & _ & _ & Hl & Hd); auto.
      repeat split; auto. }
  destruct Hw as [Hl Hd]. unfold Render.render, interactive.
  rewrite Hl. repeat split; auto. destruct (phase w'); reflexivity.
Qed.

Lemma turned_away_keeps_loading_witness :
  loading (state polling_other_role) = true /\
  Render.render (state polling_other_role) = Render.LoadingView /\
  interactive polling_other_role = false /\
  logoutDialog polling_other_role = false.
Proof.
  apply (turned_away_keeps_loading default_config
           (session (Some "tok") (Some "user"))
           [Mount; Resolve 0 Settled; Resolve 0 Settled;
            Elapse 30000; IntervalFire; Resolve 1 Settled;
            Resolve 1 (NearbyResult (Resolved (Some [sample_report 1]))
                                    (Resolved (Some [sample_panic 1]))
                                    true)]).
  - right. reflexivity.
  - vm_compute. reflexivity.
Defined.

(** * Logout *)

Section Logout.

Variable cfg : BuildConfig.

#[local] Arguments lit : simpl never.

(** X10: the logout asks first.  Pressing the button opens the
    confirmation and does nothing else: the store is untouched, nothing is
    requested, cleared or redirected.  Confirming calls [clearAuthData]
    once and, when that has settled, the store is cleared and the screen
    redirects to /auth/login, without a request.  Cancelling closes the
    dialog and changes nothing; and without an open dialog there is
    nothing to confirm. *)
Theorem logout_asks_first (w : World) :
  (interactive w = true ->
   exists w1,
     step cfg w PressLogout = Some w1 /\
     logoutDialog w1 = true /\
     storage w1 = storage w /\
     requests (trace w1) = requests (trace w) /\
     clears (trace w1) = clears (trace w) /\
     redirects (trace w1) = redirects (trace w)) /\
  (logoutDialog w = true ->
   exists w1 w2,
     step cfg w ConfirmLogout = Some w1 /\
     step cfg w1 (Resolve (length (tasks w)) Settled) = Some w2 /\
     storage w2 = cleared (storage w) /\
     clears (trace w2) = S (clears (trace w)) /\
     redirects (trace w2) = redirects (trace w) ++ ["/auth/login"] /\
     requests (trace w2) = requests (trace w) /\
     logoutDialog w2 = false) /\
  (logoutDialog w = true ->
   exists w1,
     step cfg w CancelLogout = Some w1 /\
     storage w1 = storage w /\ trace w1 = trace w /\ state w1 = state w /\
     logoutDialog w1 = false) /\
  (logoutDialog w = false -> step cfg w ConfirmLogout = None).
Proof.
  repeat apply conj.
  - intros Hi. cbn [step]. rewrite Hi.
    eexists. split; [reflexivity|]. cbn -[requests clears redirects].
    rewrite ?requests_app, ?clears_app, ?redirects_app. cbn.
    rewrite ?app_nil_r, ?Nat.add_0_r. auto.
  - intros Hd. cbn [step]. rewrite Hd.
    eexists. eexists. split; [reflexivity|].
    unfold resume, spawn. cbn -[requests clears redirects].
    rewrite list_lookup_middle by reflexivity.
    cbn -[requests clears redirects].
    split; [reflexivity|]. unfold continue.
    cbn -[requests clears redirects].
    rewrite ?requests_app, ?clears_app, ?redirects_app. cbn.
    rewrite ?app_nil_r, ?Nat.add_0_r, ?Nat.add_1_r. auto.
  - intros Hd. cbn [step]. rewrite Hd.
    eexists. split; [reflexivity|]. auto.
  - intros Hd. cbn [step]. now rewrite Hd.
Qed.

End Logout.

Lemma logout_asks_first_witness :
  exists w1,
    step default_config dashboard_world PressLogout = Some w1 /\
    logoutDialog w1 = true /\
    storage w1 = storage dashboard_world /\
    requests (trace w1) = requests (trace dashboard_world) /\
    clears (trace w1) = clears (trace dashboard_world) /\
    redirects (trace w1) = redirects (trace dashboard_world).
Proof.
  refine (proj1 (logout_asks_first default_config dashboard_world) _).
  vm_compute. reflexivity.
Defined.

(** * Strings, the backend URL and the dashboard *)

Section Strings.

Lemma trimStart_split (s : jsstring) :
  exists a, s = a ++ trimStart s /\ forallb is_white_space a = true.
Proof.
  induction s as [|c s (a & Hs & Ha)]; cbn.
  - exists []. auto.
  - destruct (is_white_space c) eqn:E.
    + exists (c :: a). cbn. rewrite E, Ha. split; [congruence|reflexivity].
    + exists []. auto.
Qed.

Lemma trimEnd_split (s : jsstring) :
  exists z, s = trimEnd s ++ z /\ forallb is_white_space z = true.
Proof.
  unfold trimEnd. destruct (trimStart_split (rev s)) as (a & Hs & Ha).
  exists (rev a). split.
  - rewrite <- rev_app_distr, <- Hs. now rewrite rev_involutive.
  - now rewrite forallb_rev_ws.
Qed.

(** X11: what [trim] keeps of the search input: the input is white
    space, then the trimmed string, then white space; the trimmed string
    neither starts nor ends with white space; trimming twice changes
    nothing.  So the term that is posted, which is not empty, starts and
    ends with a character that is not white space. *)
Theorem trim_spec (s : jsstring) :
  (exists a z,
     s = a ++ trim s ++ z /\
     forallb is_white_space a = true /\ forallb is_white_space z = true) /\
  (forall c r, trim s = c :: r -> is_white_space c = false) /\
  (forall r c, trim s = r ++ [c] -> is_white_space c = false) /\
  trim (trim s) = trim s.
Proof.
  assert (Hhead : forall c r, trim s = c :: r -> is_white_space c = false).
  { intros c r Ht. unfold trim in Ht.
    destruct (trimEnd_split (trimStart s)) as (z & Hz & _).
    rewrite Ht in Hz. cbn in Hz. now apply trimStart_head in Hz. }
  assert (Hlast : forall r c, trim s = r ++ [c] -> is_white_space c = false).
  { intros r c Ht. unfold trim, trimEnd in Ht.
    apply (f_equal (@rev N)) in Ht.
    rewrite rev_involutive, rev_app_distr in Ht. cbn in Ht.
    now apply trimStart_head in Ht. }
  repeat apply conj; auto.
  - destruct (trimStart_split s) as (a & Hs & Ha).
    destruct (trimEnd_split (trimStart s)) as (z & Hz & Hzw).
    exists a, z. fold (trim s) in Hz. rewrite <- Hz. auto.
  - assert (Hs : trimStart (trim s) = trim s).
    { destruct (trim s) as [|c r] eqn:E; [reflexivity|].
      cbn. now rewrite (Hhead c r eq_refl). }
    unfold trim at 1. rewrite Hs. unfold trimEnd.
    destruct (rev (trim s)) as [|c r] eqn:E.
    + cbn. apply (f_equal (@rev N)) in E. now rewrite rev_involutive in E.
    + assert (Ht : trim s = rev r ++ [c]).
      { apply (f_equal (@rev N)) in E. now rewrite rev_involutive in E. }
      cbn. rewrite (Hlast _ _ Ht). cbn. now rewrite <- Ht.
Qed.

(** X12: [full_name.split(' ')[0]], the name shown for the agent: the
    part of the full name before its first space; it holds no space, and
    it is empty when the full name starts with a space. *)
Theorem split_first_spec (name : jsstring) :
  (exists rest,
     name = split_first name ++ rest /\
     (rest = [] \/ exists r, rest = 0x20 :: r)) /\
  ~ In 0x20 (split_first name) /\
  (forall r, split_first (0x20 :: r) = []).
Proof.
  repeat apply conj.
  - induction name as [|c s (rest & Hs & Hr)]; cbn.
    + exists []. auto.
    + destruct (c =? 0x20) eqn:E.
      * apply N.eqb_eq in E. subst c. exists (0x20 :: s). eauto.
      * exists rest. cbn. split; [congruence|exact Hr].
  - induction name as [|c s IH]; cbn; [tauto|].
    destruct (c =? 0x20) eqn:E; cbn; [tauto|].
    apply N.eqb_neq in E. intros [H|H]; [congruence|tauto].
  - reflexivity.
Qed.

End Strings.

Section Url.

(** X13: the backend URL is the [backendUrl] of the Expo configuration
    when that is a string that is not empty, else the environment's
    EXPO_PUBLIC_BACKEND_URL when that is one, else the preview host; it is
    never empty. *)
Theorem BACKEND_URL_spec (cfg : BuildConfig) :
  (forall u, expoConfig_extra_backendUrl cfg = Some u -> u <> "" ->
     BACKEND_URL cfg = u) /\
  (forall u,
     truthy_url (expoConfig_extra_backendUrl cfg) = None ->
     EXPO_PUBLIC_BACKEND_URL cfg = Some u -> u <> "" ->
     BACKEND_URL cfg = u) /\
  (truthy_url (expoConfig_extra_backendUrl cfg) = None ->
   truthy_url (EXPO_PUBLIC_BACKEND_URL cfg) = None ->
   BACKEND_URL cfg = "https://guardlogin.preview.emergentagent.com") /\
  BACKEND_URL cfg <> "".
Proof.
  unfold BACKEND_URL, BACKEND_URL_of.
  destruct cfg as [[[|a u1]|] [[|a' u2]|]]; cbn;
    repeat apply conj; intros; try discriminate; try congruence.
Qed.

End Url.

Section Dashboard.

Import Render.

(** X14: the section headers count the whole lists while the sections
    show at most three cards: a section shows its empty text exactly when
    its list is empty, and otherwise the smaller of 3 and the count many
    cards.  The search button is disabled exactly while a search is
    running, and the loading view replaces the dashboard exactly while
    [loading] is set. *)
Theorem dashboard_counts (s : State) :
  (render s = LoadingView <-> loading s = true) /\
  (forall d,
     render s = DashboardView d ->
     panicsCount d = length (nearbyPanics s) /\
     reportsCount d = length (nearbyReports s) /\
     (panicsSection d = EmptyText <-> nearbyPanics s = []) /\
     (reportsSection d = EmptyText <-> nearbyReports s = []) /\
     length (displayed (panicsSection d)) = Nat.min 3 (panicsCount d) /\
     length (displayed (reportsSection d)) = Nat.min 3 (reportsCount d) /\
     searchDisabled d = searchLoading s /\
     searchValue d = searchTerm s).
Proof.
  split.
  - unfold render. destruct (loading s); split; try discriminate; auto.
  - intros d. unfold render. destruct (loading s); [discriminate|].
    intros [= <-]. cbn.
    assert (Hsec : forall A (xs : list A),
      (section xs = EmptyText <-> xs = []) /\
      length (displayed (section xs)) = Nat.min 3 (length xs)).
    { intros A xs. destruct xs as [|x xs]; cbn.
      - split; [tauto|reflexivity].
      - split; [split; discriminate|].
        unfold slice0. rewrite length_take. reflexivity. }
    destruct (Hsec _ (nearbyPanics s)) as [? ?].
    destruct (Hsec _ (nearbyReports s)) as [? ?].
    repeat apply conj; auto; tauto.
Qed.

End Dashboard.

Lemma BACKEND_URL_spec_witness :
  BACKEND_URL
    {| expoConfig_extra_backendUrl := Some "";
       EXPO_PUBLIC_BACKEND_URL := Some "https://api.example.org" |}
  = "https://api.example.org".
Proof.
  refine (proj1 (proj2 (BACKEND_URL_spec _)) "https://api.example.org" _ _ _).
  - reflexivity.
  - reflexivity.
  - discriminate.
Defined.

Lemma dashboard_counts_witness :
  Render.panicsCount unset_dashboard = 4%nat /\
  length (Render.displayed (Render.panicsSection unset_dashboard)) = 3%nat.
Proof.
  pose proof (proj2 (dashboard_counts unset_state) unset_dashboard eq_refl)
    as (Hc & _ & _ & _ & Hl & _).
  split; [exact Hc | exact Hl].
Defined.

Lemma trim_spec_witness :
  is_white_space 0x61 = false.
Proof.
  exact (proj1 (proj2 (trim_spec (lit " a "))) 0x61 [] eq_refl).
Defined.

Lemma split_first_spec_witness :
  split_first (0x20 :: lit "Ada") = [].
Proof.
  exact (proj2 (proj2 (split_first_spec [])) (lit "Ada")).
Defined.
